(** * playwright-smart-reporter: the history-driven signal engine

    A shallow embedding of [SmartReporter] (the reporter class of the
    repository): the rolling history store, the flakiness and
    performance-trend computation, the per-run aggregation and the
    enrichment loop, followed by the properties the specification states
    about them; then the values the report computes (text helpers,
    summary figures, card flags, filter buttons) and the two providers,
    with properties read off the code.

    JavaScript numbers are IEEE-754 binary64 values; they are modelled by
    Rocq's primitive floats, whose operations are the same binary64
    operations (round to nearest, ties to even), so that every quotient,
    comparison, NaN and infinity below is the one the program computes. *)

From Stdlib Require Import ZArith QArith Qround Qabs Floats.
From stdpp Require Import gmap strings list pretty.

Set Warnings "-inexact-float".

(* ================================================================== *)
(** * JavaScript built-ins used by the reporter *)
(* ================================================================== *)

Module JS.

(** The Number with the value of an integer (array lengths, counts),
    rounded to nearest when it does not fit 53 bits. *)
Definition of_Z (z : Z) : float :=
  SF2Prim (binary_normalize prec emax z 0 false).

Definition of_nat (n : nat) : float := of_Z (Z.of_nat n).

(** The rational number a finite Number stands for (zero for NaN and
    the infinities, which stand for none). *)
Definition exact (x : float) : Q :=
  match Prim2SF x with
  | S754_finite s m e =>
      Qmult (inject_Z (if s then Z.neg m else Z.pos m)) (Qpower (2 # 1) e)
  | _ => 0%Q
  end.

(** [Math.abs]. *)
Definition Math_abs (x : float) : float := PrimFloat.abs x.

(** [Math.round]: the integer nearest to [x], ties towards +Infinity;
    NaN, the infinities, the zeros and integral values are returned
    unchanged; a result of zero keeps the sign of [x].  For a finite
    [x = ±m·2^e] with [e < 0] the result is [floor (x + 1/2)], computed
    exactly on integers. *)
Definition Math_round (x : float) : float :=
  match Prim2SF x with
  | S754_finite s m e =>
      if (0 <=? e)%Z then x
      else
        let n := ((2 * (if s then Z.neg m else Z.pos m) + 2 ^ (- e))
                    / 2 ^ (1 - e))%Z in
        if (n =? 0)%Z then (if s then (-0)%float else 0%float)
        else of_Z n
  | _ => x
  end.

(** Truthiness of an optional string: [undefined] and the empty string
    are falsy. *)
Definition truthy (s : option string) : bool :=
  match s with
  | None => false
  | Some EmptyString => false
  | Some _ => true
  end.

(** [a || b] on optional strings. *)
Definition or_else (s : option string) (d : string) : string :=
  match s with
  | Some (String c r) => String c r
  | _ => d
  end.

(** [Array.prototype.slice(start)] for an integral [start]: a negative
    [start] counts from the end, and everything is clamped to the
    array. *)
Definition slice {A : Type} (start : Z) (l : list A) : list A :=
  let len := Z.of_nat (length l) in
  let k := if (start <? 0)%Z then Z.max (len + start) 0
           else Z.min start len in
  drop (Z.to_nat k) l.

(** [s.includes(c)] for a single character [c]. *)
Fixpoint includes_char (c : Ascii.ascii) (s : string) : bool :=
  match s with
  | EmptyString => false
  | String a r => Ascii.eqb a c || includes_char c r
  end.

(** The colon, as a character. *)
Definition colon : Ascii.ascii := Ascii.ascii_of_nat 58.

(** The characters that cannot be written inside a literal. *)
Definition dquote : string := String (Ascii.ascii_of_nat 34) EmptyString.
Definition newline : string := String (Ascii.ascii_of_nat 10) EmptyString.

(** ToBoolean of a Number: [+0], [-0] and NaN are falsy. *)
Definition number_truthy (x : float) : bool :=
  match Prim2SF x with
  | S754_zero _ | S754_nan => false
  | _ => true
  end.

(** [x >= y]: false as soon as an operand is NaN. *)
Definition geb (x y : float) : bool := (y <=? x)%float.

(** [String(b)] for a boolean. *)
Definition Boolean_toString (b : bool) : string :=
  if b then "true" else "false".

(** [s.replace(/[...]/g, t)]: every character of the class [matches]
    is replaced by [t], the others are kept.  (None of the replacement
    texts of the reporter holds a [$].) *)
Fixpoint replace_each (matches : Ascii.ascii → bool) (t s : string) : string :=
  match s with
  | EmptyString => EmptyString
  | String a r =>
      if matches a then t +:+ replace_each matches t r
      else String a (replace_each matches t r)
  end.

(** [s.startsWith(p)]. *)
Fixpoint startsWith (p s : string) : bool :=
  match p, s with
  | EmptyString, _ => true
  | String a p', String b s' => Ascii.eqb a b && startsWith p' s'
  | String _ _, EmptyString => false
  end.

(** The characters [escapeHtml] looks for, and the underscore. *)
Definition amp : Ascii.ascii := Ascii.ascii_of_nat 38.
Definition lt : Ascii.ascii := Ascii.ascii_of_nat 60.
Definition gt : Ascii.ascii := Ascii.ascii_of_nat 62.
Definition quot : Ascii.ascii := Ascii.ascii_of_nat 34.
Definition apos : Ascii.ascii := Ascii.ascii_of_nat 39.
Definition underscore : Ascii.ascii := Ascii.ascii_of_nat 95.

(** [n] zeros. *)
Fixpoint zeros (n : nat) : string :=
  match n with
  | O => EmptyString
  | S n' => String (Ascii.ascii_of_nat 48) (zeros n')
  end.

(** [Number.prototype.toFixed(fractionDigits)].  A value that is not
    finite is printed by [toString]; so is the magnitude of one that is
    at least 1e21.  Otherwise the digits are those of the integer [n]
    nearest to [|x| * 10^fractionDigits], the larger one of two that are
    equally near, padded to [fractionDigits + 1] digits, with a point
    before the last [fractionDigits] of them; a minus sign is put in
    front when [x < 0]. *)
Definition toFixed (toString : float → string) (x : float)
    (fractionDigits : nat) : string :=
  match Prim2SF x with
  | S754_nan | S754_infinity _ => toString x
  | _ =>
      let s := if Qle_bool 0 (exact x) then EmptyString else "-" in
      let r := Qabs (exact x) in
      if Qle_bool (inject_Z (10 ^ 21)) r then s +:+ toString (Math_abs x)
      else
        let n :=
          Qfloor (r * inject_Z (10 ^ Z.of_nat fractionDigits) + (1 # 2))%Q in
        let m := pretty n in
        if (fractionDigits =? 0)%nat then s +:+ m
        else
          let m :=
            if (String.length m <=? fractionDigits)%nat
            then zeros (fractionDigits + 1 - String.length m) +:+ m
            else m in
          let k := String.length m in
          s +:+ String.substring 0 (k - fractionDigits) m +:+ "."
            +:+ String.substring (k - fractionDigits) fractionDigits m
  end.

End JS.

(* ================================================================== *)
(** * Types *)
(* ================================================================== *)

Module SmartReporterOptions.
Record t := mk {
  outputFile : option string;
  historyFile : option string;
  maxHistoryRuns : option Z;
  performanceThreshold : option float;
}.
Definition none : t := mk None None None None.
End SmartReporterOptions.

(** [Required<SmartReporterOptions>]. *)
Module Options.
Record t := mk {
  outputFile : string;
  historyFile : string;
  maxHistoryRuns : Z;
  performanceThreshold : float;
}.
End Options.

Module TestHistoryEntry.
Record t := mk {
  passed : bool;
  duration : float;
  timestamp : string;
}.
End TestHistoryEntry.

(** [interface TestHistory { [testId: string]: TestHistoryEntry[] }] *)
Abbreviation TestHistory := (gmap string (list TestHistoryEntry.t)).

Inductive Status := passed | failed | skipped | timedOut | interrupted.

#[global] Instance Status_eq_dec : EqDecision Status.
Proof. solve_decision. Defined.

Module TestResultData.
Record t := mk {
  testId : string;
  title : string;
  file : string;
  status : Status;
  duration : float;
  error : option string;
  errorStack : option string;
  retry : Z;
  flakinessScore : option float;
  flakinessIndicator : option string;
  performanceTrend : option string;
  averageDuration : option float;
  aiSuggestion : option string;
}.

Definition set_error (e : option string) (st : option string) (d : t) : t :=
  mk (testId d) (title d) (file d) (status d) (duration d) e st (retry d)
     (flakinessScore d) (flakinessIndicator d) (performanceTrend d)
     (averageDuration d) (aiSuggestion d).

Definition set_signal (score : option float) (ind : option string)
    (trend : option string) (avg : option float) (d : t) : t :=
  mk (testId d) (title d) (file d) (status d) (duration d) (error d)
     (errorStack d) (retry d) score ind trend avg (aiSuggestion d).

Definition set_aiSuggestion (s : string) (d : t) : t :=
  mk (testId d) (title d) (file d) (status d) (duration d) (error d)
     (errorStack d) (retry d) (flakinessScore d) (flakinessIndicator d)
     (performanceTrend d) (averageDuration d) (Some s).
End TestResultData.

(** What the test engine hands to the reporter. *)
Module TestError.
Record t := mk { message : option string; stack : option string }.
End TestError.

Module TestCase.
Record t := mk { title : string; location_file : string }.
End TestCase.

Module TestResult.
Record t := mk {
  status : Status;
  duration : float;
  retry : Z;
  errors : list TestError.t;
}.
End TestResult.

Module FullConfig.
Record t := mk { rootDir : string }.
End FullConfig.

(** The fields of the reporter object. *)
Record SmartReporter := mkSmartReporter {
  options : Options.t;
  results : list TestResultData.t;
  history : TestHistory;
  startTime : float;
  outputDir : string;
}.

Definition set_results (rs : list TestResultData.t) (r : SmartReporter) :=
  mkSmartReporter (options r) rs (history r) (startTime r) (outputDir r).

Definition set_history (h : TestHistory) (r : SmartReporter) :=
  mkSmartReporter (options r) (results r) h (startTime r) (outputDir r).

(** [new SmartReporter(options)] *)
Definition constructor (o : SmartReporterOptions.t) : SmartReporter :=
  mkSmartReporter
    (Options.mk
       (default "smart-report.html" (SmartReporterOptions.outputFile o))
       (default "test-history.json" (SmartReporterOptions.historyFile o))
       (default 10%Z (SmartReporterOptions.maxHistoryRuns o))
       (default 0.2%float (SmartReporterOptions.performanceThreshold o)))
    [] ∅ 0%float EmptyString.

(* ================================================================== *)
(** * The outside world and the effects of a method call *)
(* ================================================================== *)

(** The file system, the environment, the clock, the console and the
    requests sent to an enrichment provider. *)
Record World := mkWorld {
  files : gmap string string;
  unreadable : gset string;
  readonly : gset string;
  env : gmap string string;
  now_ms : float;
  now_iso : string;
  console : list string;
  writes : list (string * string);
  requests : list string;
}.

Definition set_files (f : gmap string string) (wr : list (string * string))
    (w : World) : World :=
  mkWorld f (unreadable w) (readonly w) (env w) (now_ms w) (now_iso w)
          (console w) wr (requests w).

Definition set_console (c : list string) (w : World) : World :=
  mkWorld (files w) (unreadable w) (readonly w) (env w) (now_ms w)
          (now_iso w) c (writes w) (requests w).

Definition set_requests (r : list string) (w : World) : World :=
  mkWorld (files w) (unreadable w) (readonly w) (env w) (now_ms w)
          (now_iso w) (console w) (writes w) r.

Record Machine := mkMachine { this : SmartReporter; world : World }.

(** A call either returns or throws; the state reached is kept in both
    cases. *)
Inductive outcome (A : Type) : Type :=
| Returned (a : A)
| Thrown (err : string).
Arguments Returned {A} a.
Arguments Thrown {A} err.

Definition M (A : Type) : Type := Machine → outcome A * Machine.

#[global] Instance M_ret : MRet M := λ A a s, (Returned a, s).

#[global] Instance M_bind : MBind M := λ A B f m s,
  match m s with
  | (Returned a, s') => f a s'
  | (Thrown e, s') => (Thrown e, s')
  end.

Definition throw {A : Type} (e : string) : M A := λ s, (Thrown e, s).

(** [await] on a promise that has settled with outcome [o]. *)
Definition settle {A : Type} (o : outcome A) : M A := λ s, (o, s).

(** [try { body } catch (err) { handler }] *)
Definition try_catch {A : Type} (body : M A) (handler : string → M A) : M A :=
  λ s, match body s with
       | (Returned a, s') => (Returned a, s')
       | (Thrown e, s') => handler e s'
       end.

(** [for (const x of l) { body }] *)
Fixpoint for_of {A : Type} (l : list A) (body : A → M unit) : M unit :=
  match l with
  | [] => mret tt
  | x :: l' => body x ≫= λ _, for_of l' body
  end.

Definition get_this : M SmartReporter := λ s, (Returned (this s), s).
Definition put_this (r : SmartReporter) : M unit :=
  λ s, (Returned tt, mkMachine r (world s)).
Definition get_world : M World := λ s, (Returned (world s), s).
Definition put_world (w : World) : M unit :=
  λ s, (Returned tt, mkMachine (this s) w).

Definition console_log (line : string) : M unit :=
  w ← get_world; put_world (set_console (console w ++ [line]) w).

Definition fs_existsSync (p : string) : M bool :=
  w ← get_world; mret (bool_decide (is_Some (files w !! p))).

Definition fs_readFileSync (p : string) : M string :=
  w ← get_world;
  if bool_decide (p ∈ unreadable w) then throw ("EACCES: " +:+ p)
  else match files w !! p with
       | Some txt => mret txt
       | None => throw ("ENOENT: " +:+ p)
       end.

Definition fs_writeFileSync (p : string) (txt : string) : M unit :=
  w ← get_world;
  if bool_decide (p ∈ readonly w) then throw ("EACCES: " +:+ p)
  else put_world (set_files (<[p := txt]> (files w)) (writes w ++ [(p, txt)]) w).

Definition process_env (name : string) : M (option string) :=
  w ← get_world; mret (env w !! name).

(** The parts the reporter calls and this development does not look
    into: Node's [path] module, the JSON codec, the conversion of a
    Number inside a template literal, the HTML template ([generateHtml]
    and its helpers, of which only the fact that its text is written
    matters below) and the two enrichment providers ([callAnthropic] and
    [callOpenAI], which return the suggestion or throw).  [JSON_parse]
    answers [None] where [JSON.parse] throws. *)
Class Host := {
  path_relative : string → string → string;
  path_resolve : string → string → string;
  JSON_parse : string → option TestHistory;
  JSON_stringify : TestHistory → string;
  Number_toString : float → string;
  generateHtml : SmartReporter → World → string;
  callAnthropic : string → string → outcome string;
  callOpenAI : string → string → outcome string;
}.

(* ================================================================== *)
(** * The reporter *)
(* ================================================================== *)

Section Reporter.
Context `{Host}.

(** ** Flakiness and performance *)

Definition getTestId (self : SmartReporter) (test : TestCase.t) : string :=
  let file := path_relative (outputDir self) (TestCase.location_file test) in
  file +:+ "::" +:+ TestCase.title test.

Definition getFlakinessIndicator (score : float) : string :=
  if (score <? 0.1)%float then "🟢 Stable"
  else if (score <? 0.3)%float then "🟡 Unstable"
  else "🔴 Flaky".

Definition getPerformanceTrend (self : SmartReporter)
    (current average : float) : string :=
  let diff := ((current - average) / average)%float in
  if (Options.performanceThreshold (options self) <? diff)%float then
    "↑ " +:+ Number_toString (JS.Math_round (diff * 100)%float) +:+ "% slower"
  else if (diff <? - Options.performanceThreshold (options self))%float then
    "↓ " +:+ Number_toString (JS.Math_round (JS.Math_abs diff * 100)%float)
         +:+ "% faster"
  else "→ Stable".

(** ** Collecting one outcome *)

(** [failures] and [avgDuration] of [onTestEnd]. *)
Definition failures (historyEntries : list TestHistoryEntry.t) : nat :=
  length (filter (λ e, TestHistoryEntry.passed e = false) historyEntries).

Definition avgDuration (historyEntries : list TestHistoryEntry.t) : float :=
  (foldl (λ sum e, (sum + TestHistoryEntry.duration e)%float) 0%float
         historyEntries
   / JS.of_nat (length historyEntries))%float.

(** The object [onTestEnd] builds and pushes. *)
Definition testData (self : SmartReporter) (test : TestCase.t)
    (result : TestResult.t) : TestResultData.t :=
  let testId := getTestId self test in
  let file := path_relative (outputDir self) (TestCase.location_file test) in
  let d0 :=
    TestResultData.mk testId (TestCase.title test) file
      (TestResult.status result) (TestResult.duration result) None None
      (TestResult.retry result) None None None None None in
  let d1 :=
    match TestResult.status result with
    | failed | timedOut =>
        match TestResult.errors result with
        | error :: _ =>
            TestResultData.set_error
              (Some (JS.or_else (TestError.message error) "Unknown error"))
              (TestError.stack error) d0
        | [] => d0
        end
    | _ => d0
    end in
  let historyEntries := default [] (history self !! testId) in
  if (0 <? length historyEntries)%nat then
    let flakinessScore :=
      (JS.of_nat (failures historyEntries)
       / JS.of_nat (length historyEntries))%float in
    let avg := avgDuration historyEntries in
    TestResultData.set_signal
      (Some flakinessScore) (Some (getFlakinessIndicator flakinessScore))
      (Some (getPerformanceTrend self (TestResult.duration result) avg))
      (Some avg) d1
  else
    TestResultData.set_signal None (Some "⚪ New") (Some "→ Baseline") None d1.

Definition onTestEnd (test : TestCase.t) (result : TestResult.t) : M unit :=
  self ← get_this;
  put_this (set_results (results self ++ [testData self test result]) self).

(** ** History management *)

Definition loadHistory : M unit :=
  self ← get_this;
  let historyPath :=
    path_resolve (outputDir self) (Options.historyFile (options self)) in
  found ← fs_existsSync historyPath;
  if found : bool then
    try_catch
      (txt ← fs_readFileSync historyPath;
       match JSON_parse txt with
       | Some h => self ← get_this; put_this (set_history h self)
       | None => throw "SyntaxError"
       end)
      (λ _, self ← get_this; put_this (set_history ∅ self))
  else mret tt.

(** The entry [updateHistory] pushes for one result. *)
Definition historyEntry (timestamp : string) (result : TestResultData.t)
    : TestHistoryEntry.t :=
  TestHistoryEntry.mk
    (bool_decide (TestResultData.status result = passed))
    (TestResultData.duration result) timestamp.

(** One turn of the loop of [updateHistory]. *)
Definition updateHistory_step (maxHistoryRuns : Z) (timestamp : string)
    (history : TestHistory) (result : TestResultData.t) : TestHistory :=
  let id := TestResultData.testId result in
  let history1 :=
    match history !! id with
    | Some _ => history
    | None => <[id := []]> history
    end in
  let pushed :=
    default [] (history1 !! id) ++ [historyEntry timestamp result] in
  let history2 := <[id := pushed]> history1 in
  if (maxHistoryRuns <? Z.of_nat (length pushed))%Z
  then <[id := JS.slice (- maxHistoryRuns) pushed]> history2
  else history2.

Definition updateHistory : M unit :=
  w ← get_world;
  let timestamp := now_iso w in
  self ← get_this;
  let history' :=
    foldl (updateHistory_step (Options.maxHistoryRuns (options self)) timestamp)
          (history self) (results self) in
  put_this (set_history history' self);;
  let historyPath :=
    path_resolve (outputDir self) (Options.historyFile (options self)) in
  fs_writeFileSync historyPath (JSON_stringify history').

Definition onBegin (config : FullConfig.t) : M unit :=
  w ← get_world;
  self ← get_this;
  put_this (mkSmartReporter (options self) (results self) (history self)
              (now_ms w) (FullConfig.rootDir config));;
  loadHistory.

(** ** AI suggestions *)

Definition isFailure (r : TestResultData.t) : bool :=
  match TestResultData.status r with
  | failed | timedOut => true
  | _ => false
  end.

Definition buildAiPrompt (test : TestResultData.t) : string :=
  "Analyze this Playwright test failure and suggest a fix. Be concise (2-3 sentences max)."
  +:+ JS.newline +:+ JS.newline
  +:+ "Test: " +:+ TestResultData.title test +:+ JS.newline
  +:+ "File: " +:+ TestResultData.file test +:+ JS.newline
  +:+ "Error: " +:+ JS.or_else (TestResultData.error test) "Unknown error"
  +:+ JS.newline +:+ JS.newline
  +:+ "Stack trace:" +:+ JS.newline
  +:+ JS.or_else (TestResultData.errorStack test) "No stack trace available"
  +:+ JS.newline +:+ JS.newline
  +:+ "Provide a brief, actionable suggestion to fix this failure.".

(** A provider call: the request leaves, then the call returns or
    throws. *)
Definition request (call : string → string → outcome string)
    (prompt apiKey : string) : M string :=
  w ← get_world;
  put_world (set_requests (requests w ++ [prompt]) w);;
  settle (call prompt apiKey).

(** The indices in [this.results] of the objects [failedTests] holds:
    the loop writes [aiSuggestion] into those very objects. *)
Definition failedTests (rs : list TestResultData.t) : list nat :=
  filter (λ i, from_option isFailure false (rs !! i) = true)
         (seq 0 (length rs)).

Definition addAiSuggestions_body (anthropicKey openaiKey : option string)
    (i : nat) : M unit :=
  self ← get_this;
  match results self !! i with
  | None => mret tt
  | Some test =>
      try_catch
        (let prompt := buildAiPrompt test in
         if JS.truthy anthropicKey then
           s ← request callAnthropic prompt (default EmptyString anthropicKey);
           self ← get_this;
           put_this (set_results
                       (alter (TestResultData.set_aiSuggestion s) i
                              (results self)) self)
         else if JS.truthy openaiKey then
           s ← request callOpenAI prompt (default EmptyString openaiKey);
           self ← get_this;
           put_this (set_results
                       (alter (TestResultData.set_aiSuggestion s) i
                              (results self)) self)
         else mret tt)
        (λ err,
           console_log ("Failed to get AI suggestion for " +:+ JS.dquote
                        +:+ TestResultData.title test +:+ JS.dquote
                        +:+ ": " +:+ err))
  end.

(** The loop of [addAiSuggestions] seen from one result: the provider
    it asks, what becomes of the result, and the line it logs when the
    request fails. *)
Definition ask (anthropicKey openaiKey : option string)
    (test : TestResultData.t) : outcome string :=
  if JS.truthy anthropicKey then
    callAnthropic (buildAiPrompt test) (default EmptyString anthropicKey)
  else callOpenAI (buildAiPrompt test) (default EmptyString openaiKey).

Definition enriched (anthropicKey openaiKey : option string)
    (test : TestResultData.t) : TestResultData.t :=
  if isFailure test then
    match ask anthropicKey openaiKey test with
    | Returned s => TestResultData.set_aiSuggestion s test
    | Thrown _ => test
    end
  else test.

Definition complaint (anthropicKey openaiKey : option string)
    (test : TestResultData.t) : list string :=
  match ask anthropicKey openaiKey test with
  | Returned _ => []
  | Thrown err =>
      ["Failed to get AI suggestion for " +:+ JS.dquote
       +:+ TestResultData.title test +:+ JS.dquote +:+ ": " +:+ err]
  end.

Definition addAiSuggestions : M unit :=
  self ← get_this;
  let failedTests := failedTests (results self) in
  if (length failedTests =? 0)%nat then mret tt
  else
    anthropicKey ← process_env "ANTHROPIC_API_KEY";
    openaiKey ← process_env "OPENAI_API_KEY";
    if negb (JS.truthy anthropicKey) && negb (JS.truthy openaiKey) then
      console_log
        "💡 Tip: Set ANTHROPIC_API_KEY or OPENAI_API_KEY for AI failure analysis"
    else
      console_log (JS.newline +:+ "🤖 Analyzing "
                   +:+ Number_toString (JS.of_nat (length failedTests))
                   +:+ " failure(s) with AI...");;
      for_of failedTests (addAiSuggestions_body anthropicKey openaiKey).

(** The second block of [onEnd]: generate the HTML report and write it. *)
Definition onEnd_report : M unit :=
  self ← get_this;
  w ← get_world;
  let html := generateHtml self w in
  let outputPath :=
    path_resolve (outputDir self) (Options.outputFile (options self)) in
  fs_writeFileSync outputPath html;;
  console_log (JS.newline +:+ "📊 Smart Report: " +:+ outputPath).

Definition onEnd : M unit :=
  addAiSuggestions;;
  onEnd_report;;
  updateHistory.

(** ** A whole run, as the test engine drives it *)

Definition run (config : FullConfig.t)
    (events : list (TestCase.t * TestResult.t)) : M unit :=
  onBegin config;;
  for_of events (λ ev, onTestEnd ev.1 ev.2);;
  onEnd.

End Reporter.

(* ================================================================== *)
(** * The report: text helpers, summary figures, cards and filters *)
(* ================================================================== *)

(** Of the HTML report this development follows the values that are
    computed, not the markup around them: the three text helpers, the
    five figures of the summary, the attributes and flags of a card,
    and the visibility rule of the filter buttons. *)

(** ** Text helpers *)

(** A string is the sequence of its code units.  Both helpers work
    unit by unit, and the characters they look for are single units. *)

Definition escapeHtml (str : string) : string :=
  JS.replace_each (Ascii.eqb JS.apos) "&#039;"
    (JS.replace_each (Ascii.eqb JS.quot) "&quot;"
       (JS.replace_each (Ascii.eqb JS.gt) "&gt;"
          (JS.replace_each (Ascii.eqb JS.lt) "&lt;"
             (JS.replace_each (Ascii.eqb JS.amp) "&amp;" str)))).

(** What [escapeHtml] makes of one character. *)
Definition escaped (c : Ascii.ascii) : string :=
  if Ascii.eqb JS.amp c then "&amp;"
  else if Ascii.eqb JS.lt c then "&lt;"
  else if Ascii.eqb JS.gt c then "&gt;"
  else if Ascii.eqb JS.quot c then "&quot;"
  else if Ascii.eqb JS.apos c then "&#039;"
  else String c EmptyString.

(** The class [[a-zA-Z0-9]]. *)
Definition alphanumeric (c : Ascii.ascii) : bool :=
  let n := Ascii.nat_of_ascii c in
  ((97 <=? n) && (n <=? 122) || (65 <=? n) && (n <=? 90)
   || (48 <=? n) && (n <=? 57))%nat.

Definition sanitizeId (str : string) : string :=
  JS.replace_each (λ c, negb (alphanumeric c)) "_" str.

Section Report.
Context `{Host}.

Definition formatDuration (ms : float) : string :=
  if (ms <? 1000)%float then Number_toString ms +:+ "ms"
  else if (ms <? 60000)%float then
    JS.toFixed Number_toString (ms / 1000)%float 1 +:+ "s"
  else JS.toFixed Number_toString (ms / 60000)%float 1 +:+ "m".

(** Is every whole number of milliseconds from [first] on, [count] of
    them, displayed as [text]? *)
Definition displayed_as (text : string) (first count : Z) : bool :=
  forallb (λ n, String.eqb (formatDuration (JS.of_Z n)) text)
          (seqZ first count).

End Report.

(** The status, as the text it is in the program. *)
Definition Status_name (st : Status) : string :=
  match st with
  | passed => "passed"
  | failed => "failed"
  | skipped => "skipped"
  | timedOut => "timedOut"
  | interrupted => "interrupted"
  end.

(** ** The figures of the summary ([generateHtml]) *)

Module Summary.

Definition passed (results : list TestResultData.t) : nat :=
  length (filter (λ r, TestResultData.status r = passed) results).

Definition failed (results : list TestResultData.t) : nat :=
  length (filter (λ r, TestResultData.status r = failed) results).

Definition skipped (results : list TestResultData.t) : nat :=
  length (filter (λ r, TestResultData.status r = skipped) results).

(** [r.flakinessScore && r.flakinessScore >= 0.3] *)
Definition flaky (results : list TestResultData.t) : nat :=
  length
    (filter
       (λ r, match TestResultData.flakinessScore r with
             | Some score => JS.number_truthy score && JS.geb score 0.3
             | None => false
             end = true)
       results).

(** [r.performanceTrend?.startsWith('↑')] *)
Definition slow (results : list TestResultData.t) : nat :=
  length
    (filter
       (λ r, from_option (JS.startsWith "↑") false
               (TestResultData.performanceTrend r) = true)
       results).

End Summary.

(** ** A card ([generateTestCard]) *)

Module Card.

Definition statusColors : gmap string string :=
  list_to_map
    [("passed", "border-l-green-500 bg-green-50");
     ("failed", "border-l-red-500 bg-red-50");
     ("timedOut", "border-l-red-500 bg-red-50");
     ("skipped", "border-l-gray-400 bg-gray-50");
     ("interrupted", "border-l-yellow-500 bg-yellow-50")].

Definition statusIcons : gmap string string :=
  list_to_map
    [("passed", "✅");
     ("failed", "❌");
     ("timedOut", "⏱️");
     ("skipped", "⏭️");
     ("interrupted", "⚠️")].

Definition cardColor (test : TestResultData.t) : string :=
  JS.or_else (statusColors !! Status_name (TestResultData.status test))
             "border-l-gray-400 bg-gray-50".

Definition icon (test : TestResultData.t) : string :=
  JS.or_else (statusIcons !! Status_name (TestResultData.status test)) "❓".

Definition isFlaky (test : TestResultData.t) : bool :=
  match TestResultData.flakinessScore test with
  | Some score => JS.geb score 0.3
  | None => false
  end.

Definition isSlow (test : TestResultData.t) : bool :=
  from_option (JS.startsWith "↑") false (TestResultData.performanceTrend test).

Definition hasDetails (test : TestResultData.t) : bool :=
  JS.truthy (TestResultData.error test)
  || JS.truthy (TestResultData.aiSuggestion test)
  || negb (bool_decide (TestResultData.status test = passed)).

Definition cardId (test : TestResultData.t) : string :=
  sanitizeId (TestResultData.testId test).

(** The [data-status], [data-flaky] and [data-slow] attributes. *)
Record dataset := mk_dataset { status : string; flaky : string; slow : string }.

Definition attributes (test : TestResultData.t) : dataset :=
  mk_dataset (Status_name (TestResultData.status test))
             (JS.Boolean_toString (isFlaky test))
             (JS.Boolean_toString (isSlow test)).

End Card.

(** ** The filter buttons (the script of the page) *)

(** The value of [show] that [filterTests(filter)] computes for a card. *)
Definition filterTests (filter : string) (card : Card.dataset) : bool :=
  let status := Card.status card in
  let isFlaky := String.eqb (Card.flaky card) "true" in
  let isSlow := String.eqb (Card.slow card) "true" in
  if String.eqb filter "all" then true
  else if String.eqb filter "passed" && String.eqb status "passed" then true
  else if String.eqb filter "failed"
          && (String.eqb status "failed" || String.eqb status "timedOut")
       then true
  else if String.eqb filter "skipped" && String.eqb status "skipped" then true
  else if String.eqb filter "flaky" && isFlaky then true
  else if String.eqb filter "slow" && isSlow then true
  else false.

(** The cards a filter shows, as the results they were made from. *)
Definition shown (button : string) (results : list TestResultData.t)
    : list TestResultData.t :=
  filter (λ r, filterTests button (Card.attributes r) = true) results.

(* ================================================================== *)
(** * The two providers, over [fetch] *)
(* ================================================================== *)

Module RequestInit.
Record t := mk {
  method : string;
  headers : list (string * string);
  body : string;
}.
End RequestInit.

Module Response.
Record t := mk { ok : bool; status : float; text : string }.
End Response.

(** The object both providers are sent; a message is a role and a
    content. *)
Module Completion.
Record t := mk {
  model : string;
  max_tokens : Z;
  messages : list (string * string);
}.
End Completion.

(** [{ content: Array<{ type: string; text?: string }> }] *)
Module AnthropicData.
Record block := mk_block { type : string; text : option string }.
Record t := mk { content : list block }.
End AnthropicData.

(** [{ choices: Array<{ message: { content: string } }> }], read with
    [?.] at [message] and [content]. *)
Module OpenAIData.
Record message := mk_message { content : option string }.
Record choice := mk_choice { message_of : option message }.
Record t := mk { choices : list choice }.
End OpenAIData.

(** The network: [fetch], the serialisation of the request body, and
    [response.json()] read at the type each provider casts it to; a
    rejected promise is [Thrown]. *)
Class Network := {
  fetch : string → RequestInit.t → outcome Response.t;
  JSON_stringify_body : Completion.t → string;
  json_anthropic : Response.t → outcome AnthropicData.t;
  json_openai : Response.t → outcome OpenAIData.t;
}.

Module Provider.
Section Calls.
Context `{Host} `{Network}.

(** An [Error] is thrown as the text [String(err)] gives for it. *)
Definition callAnthropic (prompt apiKey : string) : outcome string :=
  match fetch "https://api.anthropic.com/v1/messages"
          (RequestInit.mk "POST"
             [("Content-Type", "application/json");
              ("x-api-key", apiKey);
              ("anthropic-version", "2023-06-01")]
             (JSON_stringify_body
                (Completion.mk "claude-3-haiku-20240307" 256
                   [("user", prompt)]))) with
  | Thrown err => Thrown err
  | Returned response =>
      if negb (Response.ok response) then
        Thrown ("Error: Anthropic API error: "
                +:+ Number_toString (Response.status response))
      else
        match json_anthropic response with
        | Thrown err => Thrown err
        | Returned data =>
            Returned
              (JS.or_else (head (AnthropicData.content data)
                             ≫= AnthropicData.text)
                          "No suggestion available")
        end
  end.

Definition callOpenAI (prompt apiKey : string) : outcome string :=
  match fetch "https://api.openai.com/v1/chat/completions"
          (RequestInit.mk "POST"
             [("Content-Type", "application/json");
              ("Authorization", "Bearer " +:+ apiKey)]
             (JSON_stringify_body
                (Completion.mk "gpt-3.5-turbo" 256 [("user", prompt)]))) with
  | Thrown err => Thrown err
  | Returned response =>
      if negb (Response.ok response) then
        Thrown ("Error: OpenAI API error: "
                +:+ Number_toString (Response.status response))
      else
        match json_openai response with
        | Thrown err => Thrown err
        | Returned data =>
            Returned
              (JS.or_else ((head (OpenAIData.choices data)
                              ≫= OpenAIData.message_of)
                             ≫= OpenAIData.content)
                          "No suggestion available")
        end
  end.

End Calls.

(** The reporter's host with the two providers spelled out. *)
Definition host (base : Host) (net : Network) : Host :=
  Build_Host (@path_relative base) (@path_resolve base) (@JSON_parse base)
    (@JSON_stringify base) (@Number_toString base) (@generateHtml base)
    (@callAnthropic base net) (@callOpenAI base net).

End Provider.

(** A host that differs in the second provider only. *)
Definition with_callOpenAI (base : Host)
    (call : string → string → outcome string) : Host :=
  Build_Host (@path_relative base) (@path_resolve base) (@JSON_parse base)
    (@JSON_stringify base) (@Number_toString base) (@generateHtml base)
    (@callAnthropic base) call.

(** A result holds no suggestion, or one that is not the empty text. *)
Definition no_empty_suggestion (r : TestResultData.t) : Prop :=
  TestResultData.aiSuggestion r = None
  ∨ JS.truthy (TestResultData.aiSuggestion r) = true.

(* ================================================================== *)
(** * The bands of the specification, on exact ratios *)
(* ================================================================== *)

(** The indicator the specification assigns to [failures] failed runs
    out of [total], comparing the exact ratio with 1/10 and 3/10:
    [failures / total < 1/10] is [10 * failures < total], and
    [failures / total < 3/10] is [10 * failures < 3 * total]. *)
Definition band_of_counts (failures total : nat) : string :=
  if (10 * failures <? total)%nat then "🟢 Stable"
  else if (10 * failures <? 3 * total)%nat then "🟡 Unstable"
  else "🔴 Flaky".

(** Does [getFlakinessIndicator], applied to the quotient the program
    computes, agree with [band_of_counts] for every history of at most
    [n] entries? *)
Definition bands_agree_upto (n : nat) : bool :=
  forallb
    (λ total,
       forallb
         (λ failures,
            String.eqb
              (getFlakinessIndicator
                 (JS.of_nat failures / JS.of_nat total)%float)
              (band_of_counts failures total))
         (seq 0 (S total)))
    (seq 1 n).

(** Does the card flag [flakinessScore >= 0.3], applied to the quotient
    the program computes, agree with the exact ratio being at least
    3/10, for every history of at most [n] entries? *)
Definition flag_agrees_upto (n : nat) : bool :=
  forallb
    (λ total,
       forallb
         (λ failures,
            Bool.eqb
              (JS.geb (JS.of_nat failures / JS.of_nat total)%float 0.3)
              (3 * total <=? 10 * failures)%nat)
         (seq 0 (S total)))
    (seq 1 n).

(* ================================================================== *)
(** * A host to compute with *)
(* ================================================================== *)

(** A small instance of [Host], used to run the reporter on concrete
    inputs.  Paths are joined and stripped textually; numbers are
    printed in decimal when they are integers (as JavaScript prints them
    below 1e21), by name when they are NaN or infinite, and as a
    fraction otherwise; parsing is a table of texts and the histories
    they denote, printing lists the keys with their entries; the two
    providers are given as functions of the prompt. *)
Module Ref.

Fixpoint strip_prefix (p s : string) : option string :=
  match p, s with
  | EmptyString, _ => Some s
  | String a p', String b s' =>
      if Ascii.eqb a b then strip_prefix p' s' else None
  | String _ _, EmptyString => None
  end.

Definition path_relative (from to : string) : string :=
  default to (strip_prefix (from +:+ "/") to).

Definition path_resolve (dir file : string) : string :=
  dir +:+ "/" +:+ file.

Definition Number_toString (x : float) : string :=
  match Prim2SF x with
  | S754_nan => "NaN"
  | S754_infinity false => "Infinity"
  | S754_infinity true => "-Infinity"
  | S754_zero _ => "0"
  | S754_finite s m e =>
      let sign := if s then "-" else EmptyString in
      if (0 <=? e)%Z then sign +:+ pretty (Z.pos m * 2 ^ e)%Z
      else if (Z.pos m mod 2 ^ (- e) =? 0)%Z
           then sign +:+ pretty (Z.pos m / 2 ^ (- e))%Z
           else sign +:+ pretty (Z.pos m) +:+ "/2^" +:+ pretty (- e)%Z
  end.

Definition JSON_parse (table : list (string * TestHistory)) (txt : string)
    : option TestHistory :=
  (λ row, snd (snd row)) <$> list_find (λ row, fst row = txt) table.

Definition show_entry (e : TestHistoryEntry.t) : string :=
  "{passed:" +:+ (if TestHistoryEntry.passed e then "true" else "false")
  +:+ ",duration:" +:+ Number_toString (TestHistoryEntry.duration e)
  +:+ ",timestamp:" +:+ TestHistoryEntry.timestamp e +:+ "}".

Definition JSON_stringify (h : TestHistory) : string :=
  "{" +:+ String.concat ","
            ((λ kv, fst kv +:+ ":[" +:+ String.concat "," (show_entry <$> snd kv)
                    +:+ "]") <$> map_to_list h)
      +:+ "}".

Definition host (table : list (string * TestHistory))
    (anthropic openai : string → outcome string) : Host :=
  Build_Host path_relative path_resolve (JSON_parse table) JSON_stringify
    Number_toString
    (λ self _, "<html>" +:+ pretty (length (results self)) +:+ " tests</html>")
    (λ prompt _, anthropic prompt) (λ prompt _, openai prompt).
End Ref.

(* ================================================================== *)
(** * Sample runs *)
(* ================================================================== *)

(** Concrete reporters, histories and outcomes on which the statements
    below are exercised. *)
Module Sample.

(** Both providers fail for the prompt of the test titled [login] and
    answer for every other prompt. *)
Definition provider (prompt : string) : outcome string :=
  match Ref.strip_prefix
          ("Analyze this Playwright test failure and suggest a fix. Be concise (2-3 sentences max)."
           +:+ JS.newline +:+ JS.newline +:+ "Test: login") prompt with
  | Some _ => Thrown "Error: Anthropic API error: 529"
  | None => Returned "Wait for the element before clicking."
  end.

Definition host : Host := Ref.host [("{}", ∅)] provider provider.

Definition entry (ok : bool) (ms : float) : TestHistoryEntry.t :=
  TestHistoryEntry.mk ok ms "2024-01-01T00:00:00.000Z".

(** A reporter with the default options, rooted at [/repo]. *)
Definition fresh : SmartReporter :=
  mkSmartReporter (options (constructor SmartReporterOptions.none))
    [] ∅ 0%float "/repo".

Definition with_options (o : SmartReporterOptions.t) (r : SmartReporter) :=
  mkSmartReporter (options (constructor o)) (results r) (history r)
    (startTime r) (outputDir r).

Definition test (title : string) : TestCase.t :=
  TestCase.mk title "/repo/a.spec.ts".

Definition outcome_of (st : Status) (ms : float) : TestResult.t :=
  TestResult.mk st ms 0
    match st with
    | failed | timedOut =>
        [TestError.mk (Some "expected visible") (Some "at a.spec.ts:3")]
    | _ => []
    end.

(** Ten earlier runs of [a.spec.ts::t], the first [k] of them failed,
    each of 100 ms. *)
Definition ten (k : nat) : list TestHistoryEntry.t :=
  replicate k (entry false 100%float) ++ replicate (10 - k) (entry true 100%float).

Definition known (entries : list TestHistoryEntry.t) : SmartReporter :=
  set_history {[ "a.spec.ts::t" := entries ]} fresh.

Definition world : World :=
  mkWorld ∅ ∅ ∅ {[ "ANTHROPIC_API_KEY" := "sk-test" ]} 0%float
    "2024-02-02T00:00:00.000Z" [] [] [].

(** A history file written when the retention bound was larger: three
    entries for a test this run does not execute. *)
Definition stale : TestHistory :=
  {[ "a.spec.ts::old" :=
       [entry true 100%float; entry false 100%float; entry true 100%float] ]}.

Definition stale_host : Host :=
  Ref.host [("<stale history>", stale)] provider provider.

Definition stale_world : World :=
  mkWorld {[ "/repo/test-history.json" := "<stale history>" ]} ∅ ∅ ∅ 0%float
    "2024-02-02T00:00:00.000Z" [] [] [].

(** A history file that is not JSON. *)
Definition corrupt_world : World :=
  mkWorld {[ "/repo/test-history.json" := "{ oops" ]} ∅ ∅ ∅ 0%float
    "2024-02-02T00:00:00.000Z" [] [] [].

(** A finished test as [updateHistory] sees it. *)
Definition finished (id : string) (st : Status) (ms : float)
    : TestResultData.t :=
  TestResultData.mk id "t" "a.spec.ts" st ms None None 0
    None None None None None.

(** Worlds in which the report, or the history file, cannot be
    written. *)
Definition report_locked : World :=
  mkWorld ∅ ∅ {[ "/repo/smart-report.html" ]}
    {[ "ANTHROPIC_API_KEY" := "sk-test" ]} 0%float
    "2024-02-02T00:00:00.000Z" [] [] [].

Definition history_locked : World :=
  mkWorld ∅ ∅ {[ "/repo/test-history.json" ]}
    {[ "ANTHROPIC_API_KEY" := "sk-test" ]} 0%float
    "2024-02-02T00:00:00.000Z" [] [] [].

(** A world whose only key is set to the empty text. *)
Definition keyless : World :=
  mkWorld ∅ ∅ ∅ {[ "ANTHROPIC_API_KEY" := EmptyString ]} 0%float
    "2024-02-02T00:00:00.000Z" [] [] [].

(** A network that answers every request with status 200 and a body
    whose first block holds the empty text. *)
Definition net : Network :=
  Build_Network
    (λ _ _, Returned (Response.mk true 200%float "{}"))
    (λ _, "{}")
    (λ _, Returned (AnthropicData.mk
                      [AnthropicData.mk_block "text" (Some EmptyString)]))
    (λ _, Returned (OpenAIData.mk [])).

(** The history one run of [a.spec.ts::t] leaves, and a host that can
    read it back. *)
Definition once : TestHistory :=
  {[ "a.spec.ts::t" :=
       [TestHistoryEntry.mk true 100%float "2024-02-02T00:00:00.000Z"] ]}.

Definition once_host : Host :=
  Ref.host [(Ref.JSON_stringify once, once)] provider provider.

End Sample.

(* ================================================================== *)
(** * Facts about binary64 comparison and the special values *)
(* ================================================================== *)

Section FloatFacts.
Local Open Scope float_scope.

(** Swapping the operands of a comparison reverses its result. *)
Lemma SFcompare_antisym (x y : spec_float) :
  SFcompare y x = CompOpp <$> SFcompare x y.
Proof.
  destruct x as [sx|sx| |sx mx ex], y as [sy|sy| |sy my ey]; simpl;
    try reflexivity;
    try (destruct sx; reflexivity); try (destruct sy; reflexivity);
    try (destruct sx, sy; reflexivity).
  destruct sx, sy; simpl; try reflexivity;
    rewrite (Z.compare_antisym ex ey); destruct (ex ?= ey)%Z; simpl;
    try reflexivity;
    rewrite (Pos.compare_cont_antisym mx my Eq); reflexivity.
Qed.

(** [x <= y] excludes [y < x]. *)
Lemma leb_not_ltb (x y : float) : (x <=? y) = true → (y <? x) = false.
Proof.
  rewrite leb_spec, ltb_spec. unfold SFleb, SFltb.
  rewrite (SFcompare_antisym (Prim2SF x) (Prim2SF y)).
  destruct (SFcompare (Prim2SF x) (Prim2SF y)) as [[]|]; simpl; congruence.
Qed.

(** Every comparison with NaN is false. *)
Lemma ltb_nan_l (x : float) : (nan <? x) = false.
Proof. rewrite ltb_spec. reflexivity. Qed.

Lemma ltb_nan_r (x : float) : (x <? nan) = false.
Proof.
  rewrite ltb_spec. change (Prim2SF nan) with S754_nan.
  unfold SFltb. destruct (Prim2SF x); reflexivity.
Qed.

(** Nothing is above +Infinity. *)
Lemma ltb_infinity_l (x : float) : (infinity <? x) = false.
Proof.
  rewrite ltb_spec. change (Prim2SF infinity) with (S754_infinity false).
  unfold SFltb. destruct (Prim2SF x) as [[]|[]| |[] ? ?]; reflexivity.
Qed.

(** Below the opposite of a non-negative threshold is not above the
    threshold. *)
Lemma below_neg_not_above (t d : float) :
  (0 <=? t) = true → (d <? - t) = true → (t <? d) = false.
Proof.
  rewrite leb_spec, !ltb_spec, opp_spec.
  change (Prim2SF 0) with (S754_zero false).
  unfold SFleb, SFltb.
  destruct (Prim2SF t) as [[]|[]| |[] mt et],
           (Prim2SF d) as [[]|[]| |[] md ed]; simpl; congruence.
Qed.

(** The two band limits of [getFlakinessIndicator], as binary64 values. *)
Lemma Prim2SF_tenth : Prim2SF 0.1 = S754_finite false 7205759403792794 (-56).
Proof. reflexivity. Qed.

Lemma Prim2SF_three_tenths :
  Prim2SF 0.3 = S754_finite false 5404319552844595 (-54).
Proof. reflexivity. Qed.

(** From 0.3 upwards a score is not below 0.1. *)
Lemma above_three_tenths_not_below_tenth (s : float) :
  (0.3 <=? s) = true → (s <? 0.1) = false.
Proof.
  rewrite leb_spec, ltb_spec, Prim2SF_tenth, Prim2SF_three_tenths.
  unfold SFleb, SFltb.
  destruct (Prim2SF s) as [[]|[]| |[] m e]; unfold SFcompare;
    try congruence.
  destruct (Z.compare_spec (-54) e), (Z.compare_spec e (-56));
    try congruence; lia.
Qed.

(** A positive Number, finite or not, minus zero and divided by zero is
    +Infinity; zero minus zero divided by zero is NaN. *)
Lemma positive_over_zero (c : float) :
  (0 <? c) = true → (c - 0) / 0 = infinity.
Proof.
  rewrite ltb_spec. change (Prim2SF 0) with (S754_zero false).
  intros Hc. apply Prim2SF_inj.
  rewrite div_spec, sub_spec. change (Prim2SF 0) with (S754_zero false).
  change (Prim2SF infinity) with (S754_infinity false).
  unfold SFltb in Hc.
  destruct (Prim2SF c) as [[]|[]| |[] m e]; simpl in *; congruence.
Qed.

Lemma zero_over_zero : (0 - 0) / 0 = nan.
Proof. reflexivity. Qed.

End FloatFacts.

(* ================================================================== *)
(** * The signal engine *)
(* ================================================================== *)

Section Signal.
Context `{Host}.

(** With a non-empty history, [onTestEnd] fills the four signal
    fields from it. *)
Lemma testData_known (self : SmartReporter) (test : TestCase.t)
    (result : TestResult.t) (entries : list TestHistoryEntry.t) :
  history self !! getTestId self test = Some entries →
  entries ≠ [] →
  let score := (JS.of_nat (failures entries)
                / JS.of_nat (length entries))%float in
  let d := testData self test result in
  TestResultData.flakinessScore d = Some score
  ∧ TestResultData.flakinessIndicator d = Some (getFlakinessIndicator score)
  ∧ TestResultData.performanceTrend d
    = Some (getPerformanceTrend self (TestResult.duration result)
              (avgDuration entries))
  ∧ TestResultData.averageDuration d = Some (avgDuration entries).
Proof.
  intros Hlook Hne score d. subst d score. unfold testData.
  rewrite Hlook. cbn [default from_option id].
  destruct entries as [|e entries]; [congruence|].
  change (0 <? length (e :: entries))%nat with true. cbv iota.
  repeat split.
Qed.

(** Without history the signal is the fixed pair of labels. *)
Lemma testData_new (self : SmartReporter) (test : TestCase.t)
    (result : TestResult.t) :
  default [] (history self !! getTestId self test) = [] →
  let d := testData self test result in
  TestResultData.flakinessScore d = None
  ∧ TestResultData.flakinessIndicator d = Some "⚪ New"
  ∧ TestResultData.performanceTrend d = Some "→ Baseline"
  ∧ TestResultData.averageDuration d = None.
Proof.
  intros Hlook d. subst d. unfold testData. rewrite Hlook.
  change (0 <? length (@nil TestHistoryEntry.t))%nat with false. cbv iota.
  repeat split.
Qed.

End Signal.

(** For histories of up to 256 entries the quotient the program
    computes falls in the band of the exact ratio. *)
Lemma bands_agree_256 : bands_agree_upto 256 = true.
Proof. vm_compute. reflexivity. Qed.

(** [bands_agree_upto] means what it says. *)
Lemma bands_agree_upto_sound (n failures total : nat) :
  bands_agree_upto n = true →
  (0 < total ≤ n)%nat → (failures ≤ total)%nat →
  getFlakinessIndicator (JS.of_nat failures / JS.of_nat total)%float
  = band_of_counts failures total.
Proof.
  unfold bands_agree_upto. rewrite forallb_forall. intros Hall Htotal Hfailures.
  specialize (Hall total). rewrite forallb_forall in Hall.
  apply String.eqb_eq, Hall; apply in_seq; lia.
Qed.

Lemma bands_agree (failures total : nat) :
  (0 < total ≤ 256)%nat → (failures ≤ total)%nat →
  getFlakinessIndicator (JS.of_nat failures / JS.of_nat total)%float
  = band_of_counts failures total.
Proof. apply bands_agree_upto_sound, bands_agree_256. Qed.

(** C1.  For every non-empty sequence of prior entries of a test, the
    flakiness score [onTestEnd] records is the quotient of the number of
    entries with [passed = false] by the length of the sequence, and the
    indicator follows the bands with inclusive lower bounds: below 0.1
    Stable, from 0.1 and below 0.3 Unstable, from 0.3 Flaky.  A score of
    exactly 0.1 (one failure in ten) is Unstable and a score of exactly
    0.3 (three in ten) is Flaky.  The quotient is the binary64 quotient
    of the two counts; for sequences of up to 256 entries the indicator
    is also the one of the exact ratio. *)
Theorem C1_flakiness_score_and_bands `{Host} (self : SmartReporter)
    (test : TestCase.t) (result : TestResult.t)
    (entries : list TestHistoryEntry.t) :
  history self !! getTestId self test = Some entries →
  entries ≠ [] →
  let score :=
    (JS.of_nat (length (filter (λ e, TestHistoryEntry.passed e = false) entries))
     / JS.of_nat (length entries))%float in
  let d := testData self test result in
  TestResultData.flakinessScore d = Some score
  ∧ ((score <? 0.1)%float = true →
     TestResultData.flakinessIndicator d = Some "🟢 Stable")
  ∧ ((0.1 <=? score)%float = true → (score <? 0.3)%float = true →
     TestResultData.flakinessIndicator d = Some "🟡 Unstable")
  ∧ ((0.3 <=? score)%float = true →
     TestResultData.flakinessIndicator d = Some "🔴 Flaky")
  ∧ getFlakinessIndicator 0.1 = "🟡 Unstable"
  ∧ getFlakinessIndicator (JS.of_nat 1 / JS.of_nat 10) = "🟡 Unstable"
  ∧ getFlakinessIndicator 0.3 = "🔴 Flaky"
  ∧ getFlakinessIndicator (JS.of_nat 3 / JS.of_nat 10) = "🔴 Flaky"
  ∧ ((length entries ≤ 256)%nat →
     TestResultData.flakinessIndicator d
     = Some (band_of_counts
               (length (filter (λ e, TestHistoryEntry.passed e = false) entries))
               (length entries))).
Proof.
  intros Hlook Hne score d.
  destruct (testData_known self test result entries Hlook Hne)
    as (Hscore & Hind & _ & _).
  fold (failures entries) in score. fold score in Hscore, Hind. fold d in Hscore, Hind.
  split; [exact Hscore|]. rewrite Hind. unfold getFlakinessIndicator.
  split; [intros ->; reflexivity|].
  split.
  { intros Hlo Hhi. rewrite (leb_not_ltb _ _ Hlo), Hhi. reflexivity. }
  split.
  { intros Hlo.
    rewrite (above_three_tenths_not_below_tenth _ Hlo), (leb_not_ltb _ _ Hlo).
    reflexivity. }
  do 4 (split; [reflexivity|]).
  intros Hshort. f_equal. apply bands_agree.
  - destruct entries; [done|]. cbn [length] in *. lia.
  - apply length_filter.
Qed.

Lemma C1_flakiness_score_and_bands_witness :
  let self := Sample.known (Sample.ten 3) in
  let d := @testData Sample.host self (Sample.test "t")
             (Sample.outcome_of passed 100%float) in
  TestResultData.flakinessScore d = Some 0.3%float
  ∧ TestResultData.flakinessIndicator d = Some "🔴 Flaky".
Proof.
  intros self d.
  destruct (@C1_flakiness_score_and_bands Sample.host self (Sample.test "t")
              (Sample.outcome_of passed 100%float) (Sample.ten 3))
    as (Hscore & _ & _ & Hflaky & _).
  - vm_compute. reflexivity.
  - vm_compute. discriminate.
  - subst d. split.
    + rewrite Hscore. vm_compute. reflexivity.
    + apply Hflaky. vm_compute. reflexivity.
Defined.

(** C5.  For every test whose sequence of prior entries is empty (no
    entry for its key, or an empty one), the signal [onTestEnd] records
    has indicator New and trend Baseline, and carries neither a
    flakiness score nor an average duration. *)
Theorem C5_empty_history_new_baseline `{Host} (self : SmartReporter)
    (test : TestCase.t) (result : TestResult.t) (w : World) :
  default [] (history self !! getTestId self test) = [] →
  let d := testData self test result in
  onTestEnd test result (mkMachine self w)
  = (Returned tt, mkMachine (set_results (results self ++ [d]) self) w)
  ∧ TestResultData.flakinessIndicator d = Some "⚪ New"
  ∧ TestResultData.performanceTrend d = Some "→ Baseline"
  ∧ TestResultData.flakinessScore d = None
  ∧ TestResultData.averageDuration d = None.
Proof.
  intros Hlook d.
  destruct (testData_new self test result Hlook) as (Hs & Hi & Ht & Ha).
  fold d in Hs, Hi, Ht, Ha. repeat split; assumption.
Qed.

Lemma C5_empty_history_new_baseline_witness :
  let d := @testData Sample.host Sample.fresh (Sample.test "t")
             (Sample.outcome_of passed 500%float) in
  TestResultData.flakinessIndicator d = Some "⚪ New"
  ∧ TestResultData.performanceTrend d = Some "→ Baseline"
  ∧ TestResultData.flakinessScore d = None
  ∧ TestResultData.averageDuration d = None.
Proof.
  intros d.
  destruct (@C5_empty_history_new_baseline Sample.host Sample.fresh
              (Sample.test "t") (Sample.outcome_of passed 500%float)
              Sample.world) as (_ & Hrest).
  - vm_compute. reflexivity.
  - exact Hrest.
Defined.

(** C2 does not hold as stated: a current duration inside the
    inclusive band can be reported faster.  With a threshold of 0.9 and
    one earlier run of 4589 ms, a current duration of 458.9 ms lies in
    the band from [avg * (1 - threshold)] to [avg * (1 + threshold)],
    both when the ends are computed by the program's arithmetic and when
    they are computed exactly from the three numbers.  The program forms
    [458.9 - 4589], which is rounded (downwards, to the binary64 value
    nearest -4130.1), and divides by 4589, which gives
    -0.9000000000000001: below -0.9. *)
Lemma C2_inside_band_reported_faster :
  let entries := [Sample.entry true 4589%float] in
  let self :=
    Sample.with_options (SmartReporterOptions.mk None None None (Some 0.9%float))
      (Sample.known entries) in
  let thr := Options.performanceThreshold (options self) in
  let avg := avgDuration entries in
  let current := 458.9%float in
  let d := @testData Sample.host self (Sample.test "t")
             (Sample.outcome_of passed current) in
  (history self !! @getTestId Sample.host self (Sample.test "t") = Some entries
   ∧ thr = 0.9%float ∧ avg = 4589%float)
  ∧ ((avg * (1 - thr) <=? current)%float = true
     ∧ (current <=? avg * (1 + thr))%float = true)
  ∧ (Qle (Qmult (JS.exact avg) (Qminus 1 (JS.exact thr))) (JS.exact current)
     ∧ Qle (JS.exact current) (Qmult (JS.exact avg) (Qplus 1 (JS.exact thr))))
  ∧ ((current - avg) / avg = -0.9000000000000001)%float
  ∧ TestResultData.performanceTrend d = Some "↓ 90% faster".
Proof.
  vm_compute. repeat split; discriminate.
Qed.

(** With the default threshold 0.2 the same happens at the upper end of
    the band as the program computes it: after one run of 7 ms,
    [7 * (1 + 0.2)] is 8.4, and [(8.4 - 7) / 7] is 0.20000000000000007,
    above 0.2. *)
Lemma band_end_default_threshold :
  let entries := [Sample.entry true 7%float] in
  let self := Sample.known entries in
  let thr := Options.performanceThreshold (options self) in
  let avg := avgDuration entries in
  let current := (avg * (1 + thr))%float in
  let d := @testData Sample.host self (Sample.test "t")
             (Sample.outcome_of passed current) in
  (thr = 0.2%float ∧ avg = 7%float ∧ current = 8.4%float)
  ∧ (current <=? avg * (1 + thr))%float = true
  ∧ TestResultData.performanceTrend d = Some "↑ 20% slower".
Proof. vm_compute. repeat split. Qed.

(** C2, amended.  For every non-empty sequence of prior entries, with
    [avg] the mean of their durations and [diff = (current - avg) / avg]
    as the program computes them: the recorded average is [avg]; the
    trend is slower by [round (diff * 100)] percent when
    [diff > threshold]; it is faster by [round (|diff| * 100)] percent
    when [diff < - threshold] and [diff > threshold] does not hold,
    which a non-negative threshold guarantees; it is Stable otherwise,
    in particular whenever the computed [diff] lies in the inclusive
    band from [- threshold] to [threshold]. *)
Theorem C2_performance_trend `{Host} (self : SmartReporter)
    (test : TestCase.t) (result : TestResult.t)
    (entries : list TestHistoryEntry.t) :
  history self !! getTestId self test = Some entries →
  entries ≠ [] →
  let thr := Options.performanceThreshold (options self) in
  let current := TestResult.duration result in
  let avg :=
    (foldl (λ sum e, sum + TestHistoryEntry.duration e) 0 entries
     / JS.of_nat (length entries))%float in
  let diff := ((current - avg) / avg)%float in
  let d := testData self test result in
  TestResultData.averageDuration d = Some avg
  ∧ ((thr <? diff)%float = true →
     TestResultData.performanceTrend d
     = Some ("↑ " +:+ Number_toString (JS.Math_round (diff * 100)%float)
             +:+ "% slower"))
  ∧ ((diff <? - thr)%float = true → (thr <? diff)%float = false →
     TestResultData.performanceTrend d
     = Some ("↓ " +:+ Number_toString (JS.Math_round (JS.Math_abs diff * 100)%float)
             +:+ "% faster"))
  ∧ ((diff <? - thr)%float = true → (0 <=? thr)%float = true →
     TestResultData.performanceTrend d
     = Some ("↓ " +:+ Number_toString (JS.Math_round (JS.Math_abs diff * 100)%float)
             +:+ "% faster"))
  ∧ ((thr <? diff)%float = false → (diff <? - thr)%float = false →
     TestResultData.performanceTrend d = Some "→ Stable")
  ∧ ((- thr <=? diff)%float = true → (diff <=? thr)%float = true →
     TestResultData.performanceTrend d = Some "→ Stable").
Proof.
  intros Hlook Hne thr current avg diff d.
  destruct (testData_known self test result entries Hlook Hne)
    as (_ & _ & Htrend & Havg).
  fold (avgDuration entries) in avg. fold avg in Htrend, Havg.
  fold current in Htrend. fold d in Htrend, Havg.
  split; [exact Havg|]. rewrite Htrend. unfold getPerformanceTrend.
  fold thr. fold diff.
  split; [intros ->; reflexivity|].
  split; [intros -> ->; reflexivity|].
  split.
  { intros Hlt Hpos. rewrite (below_neg_not_above _ _ Hpos Hlt), Hlt.
    reflexivity. }
  split; [intros -> ->; reflexivity|].
  intros Hlo Hhi.
  rewrite (leb_not_ltb _ _ Hhi), (leb_not_ltb _ _ Hlo). reflexivity.
Qed.

Lemma C2_performance_trend_witness :
  let self := Sample.known (Sample.ten 4) in
  let d := @testData Sample.host self (Sample.test "t")
             (Sample.outcome_of passed 200%float) in
  TestResultData.averageDuration d = Some 100%float
  ∧ TestResultData.performanceTrend d = Some "↑ 100% slower".
Proof.
  intros self d.
  destruct (@C2_performance_trend Sample.host self (Sample.test "t")
              (Sample.outcome_of passed 200%float) (Sample.ten 4))
    as (Havg & Hslow & _).
  - vm_compute. reflexivity.
  - vm_compute. discriminate.
  - subst d. split.
    + rewrite Havg. vm_compute. reflexivity.
    + rewrite Hslow; vm_compute; reflexivity.
Defined.

(** C10.  [getPerformanceTrend] has no guard for a zero average: for
    every input it returns one of the three trend strings, and with an
    average of zero the quotient [(current - 0) / 0] is still formed and
    compared with the threshold.  It is NaN when the current duration is
    zero too, so both comparisons fail and the result is Stable whatever
    the threshold; it is +Infinity when the current duration is
    positive, so the result is slower exactly when the threshold is
    below +Infinity.  Accordingly [onTestEnd] records Stable for a test
    of duration zero whose earlier durations average to zero. *)
Theorem C10_zero_average_unguarded `{Host} (self : SmartReporter)
    (current average : float) :
  let thr := Options.performanceThreshold (options self) in
  ((∃ pct, getPerformanceTrend self current average
           = "↑ " +:+ pct +:+ "% slower")
   ∨ (∃ pct, getPerformanceTrend self current average
             = "↓ " +:+ pct +:+ "% faster")
   ∨ getPerformanceTrend self current average = "→ Stable")
  ∧ getPerformanceTrend self current 0
    = (let quotient := ((current - 0) / 0)%float in
       if (thr <? quotient)%float then
         "↑ " +:+ Number_toString (JS.Math_round (quotient * 100)%float)
              +:+ "% slower"
       else if (quotient <? - thr)%float then
         "↓ " +:+ Number_toString
                    (JS.Math_round (JS.Math_abs quotient * 100)%float)
              +:+ "% faster"
       else "→ Stable")
  ∧ ((0 - 0) / 0 = nan)%float
  ∧ getPerformanceTrend self 0 0 = "→ Stable"
  ∧ ((0 <? current)%float = true →
     ((current - 0) / 0 = infinity)%float
     ∧ getPerformanceTrend self current 0
       = if (thr <? infinity)%float
         then "↑ " +:+ Number_toString infinity +:+ "% slower"
         else "→ Stable")
  ∧ (∀ (test : TestCase.t) (result : TestResult.t)
       (entries : list TestHistoryEntry.t),
       history self !! getTestId self test = Some entries →
       entries ≠ [] →
       avgDuration entries = 0%float →
       TestResult.duration result = 0%float →
       TestResultData.averageDuration (testData self test result) = Some 0%float
       ∧ TestResultData.performanceTrend (testData self test result)
         = Some "→ Stable").
Proof.
  intros thr.
  assert (Hzero : getPerformanceTrend self 0 0 = "→ Stable").
  { unfold getPerformanceTrend. rewrite zero_over_zero.
    rewrite ltb_nan_r, ltb_nan_l. reflexivity. }
  split.
  { unfold getPerformanceTrend.
    destruct (_ <? _)%float; [left; eexists; reflexivity|].
    destruct (_ <? _)%float; [right; left; eexists; reflexivity|].
    right; right; reflexivity. }
  split; [reflexivity|]. split; [reflexivity|]. split; [exact Hzero|]. split.
  { intros Hpos. pose proof (positive_over_zero current Hpos) as Hq.
    split; [exact Hq|]. unfold getPerformanceTrend. rewrite Hq. fold thr.
    destruct (thr <? infinity)%float; [reflexivity|].
    rewrite ltb_infinity_l. reflexivity. }
  intros test result entries Hlook Hne Havg Hcur.
  destruct (testData_known self test result entries Hlook Hne)
    as (_ & _ & Htrend & Hmean).
  rewrite Hmean, Htrend, Havg, Hcur, Hzero. done.
Qed.

Lemma C10_zero_average_unguarded_witness :
  @getPerformanceTrend Sample.host Sample.fresh 0 0 = "→ Stable"
  ∧ @getPerformanceTrend Sample.host Sample.fresh 5 0 = "↑ Infinity% slower".
Proof.
  destruct (@C10_zero_average_unguarded Sample.host Sample.fresh 5 0)
    as (_ & _ & _ & Hzero & Hpos & _).
  split; [exact Hzero|].
  destruct Hpos as [_ Htrend]; [vm_compute; reflexivity|].
  rewrite Htrend. vm_compute. reflexivity.
Defined.

(* ================================================================== *)
(** * The history store *)
(* ================================================================== *)

(** [slice(-n)] keeps the last [n] elements. *)
Lemma slice_last {A : Type} (n : Z) (l : list A) :
  (0 < n)%Z → JS.slice (- n) l = drop (length l - Z.to_nat n) l.
Proof.
  intros Hn. unfold JS.slice.
  destruct (Z.ltb_spec (- n) 0); [|lia]. f_equal. lia.
Qed.

(** With a bound of zero [slice(-0)] is [slice(0)]: nothing is dropped. *)
Lemma slice_zero {A : Type} (l : list A) : JS.slice (- 0) l = l.
Proof.
  unfold JS.slice. change (- 0 <? 0)%Z with false. cbv iota.
  replace (Z.to_nat (Z.min (- 0) (Z.of_nat (length l)))) with 0%nat by lia.
  reflexivity.
Qed.

(** One turn of the loop, at the key of the result and elsewhere. *)
Lemma updateHistory_step_same (n : Z) (ts : string) (h : TestHistory)
    (r : TestResultData.t) :
  updateHistory_step n ts h r !! TestResultData.testId r
  = Some (let pushed :=
            default [] (h !! TestResultData.testId r) ++ [historyEntry ts r] in
          if (n <? Z.of_nat (length pushed))%Z
          then JS.slice (- n) pushed else pushed).
Proof.
  unfold updateHistory_step.
  destruct (h !! TestResultData.testId r) as [old|] eqn:Hold; cbn zeta.
  - rewrite Hold. cbn [default from_option id].
    destruct (_ <? _)%Z; by rewrite lookup_insert_eq.
  - rewrite lookup_insert_eq. cbn [default from_option id].
    destruct (_ <? _)%Z; by rewrite lookup_insert_eq.
Qed.

Lemma updateHistory_step_other (n : Z) (ts : string) (h : TestHistory)
    (r : TestResultData.t) (id : string) :
  id ≠ TestResultData.testId r → updateHistory_step n ts h r !! id = h !! id.
Proof.
  intros Hne. unfold updateHistory_step.
  destruct (h !! TestResultData.testId r) as [old|] eqn:Hold; cbn zeta;
    destruct (_ <? _)%Z; by rewrite ?lookup_insert_ne.
Qed.

(** One turn of the loop leaves the sequence it touches within a
    positive bound. *)
Lemma updateHistory_step_bound (n : Z) (ts : string) (h : TestHistory)
    (r : TestResultData.t) (kept : list TestHistoryEntry.t) :
  (0 < n)%Z →
  updateHistory_step n ts h r !! TestResultData.testId r = Some kept →
  (Z.of_nat (length kept) ≤ n)%Z.
Proof.
  intros Hn. rewrite updateHistory_step_same. intros [= <-]. cbn zeta.
  destruct (Z.ltb_spec n
              (Z.of_nat (length (default [] (h !! TestResultData.testId r)
                                   ++ [historyEntry ts r])))) as [Hlt|Hge].
  - rewrite slice_last by done. rewrite length_drop. lia.
  - done.
Qed.

(** The loop leaves the sequence of a test without a result alone. *)
Lemma updateHistory_fold_other (n : Z) (ts : string)
    (rs : list TestResultData.t) (h : TestHistory) (id : string) :
  id ∉ TestResultData.testId <$> rs →
  foldl (updateHistory_step n ts) h rs !! id = h !! id.
Proof.
  revert h. induction rs as [|r rs IH]; intros h Hid; [done|].
  cbn [foldl]. rewrite fmap_cons, not_elem_of_cons in Hid.
  destruct Hid as [Hne Hid].
  rewrite IH by done. by apply updateHistory_step_other.
Qed.

(** After the loop the sequence of a test with a result is within the
    bound, whatever its length was before. *)
Lemma updateHistory_fold_bound (n : Z) (ts : string)
    (rs : list TestResultData.t) (h : TestHistory) (id : string)
    (kept : list TestHistoryEntry.t) :
  (0 < n)%Z →
  id ∈ TestResultData.testId <$> rs →
  foldl (updateHistory_step n ts) h rs !! id = Some kept →
  (Z.of_nat (length kept) ≤ n)%Z.
Proof.
  intros Hn. revert h. induction rs as [|r rs IH]; intros h Hid Hkept.
  - by apply elem_of_nil in Hid.
  - cbn [foldl] in Hkept.
    destruct (decide (id ∈ TestResultData.testId <$> rs)) as [Hin|Hout].
    + by apply (IH _ Hin Hkept).
    + rewrite updateHistory_fold_other in Hkept by done.
      rewrite fmap_cons, elem_of_cons in Hid.
      destruct Hid as [->|Hin]; [|done].
      by apply (updateHistory_step_bound n ts h r).
Qed.

(** What [updateHistory] leaves in [this.history], whether or not the
    write that follows succeeds. *)
Lemma updateHistory_history `{Host} (s : Machine) :
  history (this (updateHistory s).2)
  = foldl (updateHistory_step (Options.maxHistoryRuns (options (this s)))
             (now_iso (world s)))
          (history (this s)) (results (this s)).
Proof.
  unfold updateHistory, fs_writeFileSync, get_world, get_this, put_this,
    put_world, throw, mbind, M_bind. cbn.
  destruct (bool_decide _); reflexivity.
Qed.

(** C3.  One turn of the history update appends the entry of the result
    to the sequence of its test and keeps the most recent
    [maxHistoryRuns] entries, dropping from the front: what is kept is
    the end of the old sequence followed by the new entry, in the same
    order, it is never longer than [maxHistoryRuns], and the new entry is
    last.  With [maxHistoryRuns = 2], three successive appends A, B, C
    to an initially empty sequence leave exactly [B, C]. *)
Theorem C3_append_keeps_most_recent (maxHistoryRuns : Z) (timestamp : string)
    (history : TestHistory) (result : TestResultData.t) :
  (0 < maxHistoryRuns)%Z →
  let id := TestResultData.testId result in
  let appended := default [] (history !! id) ++ [historyEntry timestamp result] in
  let kept := drop (length appended - Z.to_nat maxHistoryRuns) appended in
  updateHistory_step maxHistoryRuns timestamp history result !! id = Some kept
  ∧ (length kept ≤ Z.to_nat maxHistoryRuns)%nat
  ∧ last kept = Some (historyEntry timestamp result)
  ∧ (∃ dropped, appended = dropped ++ kept)
  ∧ (∀ (h : TestHistory) (A B C : TestResultData.t),
       TestResultData.testId B = TestResultData.testId A →
       TestResultData.testId C = TestResultData.testId A →
       default [] (h !! TestResultData.testId A) = [] →
       foldl (updateHistory_step 2 timestamp) h [A; B; C]
         !! TestResultData.testId A
       = Some [historyEntry timestamp B; historyEntry timestamp C]).
Proof.
  intros Hn id appended kept. split; [|split; [|split; [|split]]].
  - subst id. rewrite updateHistory_step_same. cbn zeta. fold appended.
    f_equal. destruct (Z.ltb_spec maxHistoryRuns (Z.of_nat (length appended))).
    + by apply slice_last.
    + subst kept. replace (length appended - Z.to_nat maxHistoryRuns)%nat
        with 0%nat by lia. done.
  - subst kept. rewrite length_drop. lia.
  - subst kept appended. rewrite length_app. cbn [length].
    rewrite drop_app_le by lia. apply last_snoc.
  - exists (take (length appended - Z.to_nat maxHistoryRuns) appended).
    subst kept. by rewrite take_drop.
  - intros h A B C HB HC Hempty. cbn [foldl].
    rewrite <- HC. rewrite updateHistory_step_same. rewrite HC.
    rewrite <- HB. rewrite updateHistory_step_same. rewrite HB.
    rewrite updateHistory_step_same. rewrite Hempty. reflexivity.
Qed.

Lemma C3_append_keeps_most_recent_witness :
  let A := Sample.finished "a.spec.ts::t" passed 1%float in
  let B := Sample.finished "a.spec.ts::t" failed 2%float in
  let C := Sample.finished "a.spec.ts::t" passed 3%float in
  updateHistory_step 2 "now"
    {[ "a.spec.ts::t" := [historyEntry "then" A; historyEntry "then" B] ]} C
    !! "a.spec.ts::t"
  = Some [historyEntry "then" B; historyEntry "now" C].
Proof.
  intros A B C.
  destruct (C3_append_keeps_most_recent 2 "now"
              {[ "a.spec.ts::t" := [historyEntry "then" A; historyEntry "then" B] ]}
              C) as (Hkept & _).
  - lia.
  - exact Hkept.
Defined.

(** C4 does not hold as stated: a sequence that is longer than the
    bound in the history file, of a test the current run does not
    execute, is as long after the run-end update.  The reporter is
    created with [maxHistoryRuns = 2]; the file holds three entries for
    [a.spec.ts::old]; the run executes [a.spec.ts::t] only; after
    [onEnd] the three entries are still there, in memory and in the file
    written. *)
Lemma C4_sequence_of_absent_test_stays_long :
  let self := constructor (SmartReporterOptions.mk None None (Some 2%Z) None) in
  let final :=
    (@run Sample.stale_host (FullConfig.mk "/repo")
       [(Sample.test "t", Sample.outcome_of passed 100%float)]
       (mkMachine self Sample.stale_world)) in
  final.1 = Returned tt
  ∧ Options.maxHistoryRuns (options (this final.2)) = 2%Z
  ∧ length <$> history (this final.2) !! "a.spec.ts::old" = Some 3%nat
  ∧ length <$> history (this final.2) !! "a.spec.ts::t" = Some 1%nat
  ∧ files (world final.2) !! "/repo/test-history.json"
    = Some (@JSON_stringify Sample.stale_host (history (this final.2))).
Proof. vm_compute. repeat split. Qed.

(** C4, amended.  After the run-end history update under a positive
    [maxHistoryRuns], the sequence of every test that has a result in
    the current run is at most [maxHistoryRuns] long, whatever its
    length in the loaded state; the sequence of a test without a result
    in the run is left exactly as loaded; hence, when every loaded
    sequence respects the bound, every sequence does afterwards.  What
    is persisted is that same mapping. *)
Theorem C4_bound_after_update `{Host} (s : Machine) :
  (0 < Options.maxHistoryRuns (options (this s)))%Z →
  let bound := Options.maxHistoryRuns (options (this s)) in
  let loaded := history (this s) in
  let ran := TestResultData.testId <$> results (this s) in
  let after := history (this (updateHistory s).2) in
  (∀ id kept, id ∈ ran → after !! id = Some kept →
     (Z.of_nat (length kept) ≤ bound)%Z)
  ∧ (∀ id, id ∉ ran → after !! id = loaded !! id)
  ∧ ((∀ id entries, loaded !! id = Some entries →
        (Z.of_nat (length entries) ≤ bound)%Z) →
     ∀ id kept, after !! id = Some kept → (Z.of_nat (length kept) ≤ bound)%Z)
  ∧ (∀ s', updateHistory s = (Returned tt, s') →
     files (world s')
       !! path_resolve (outputDir (this s)) (Options.historyFile (options (this s)))
     = Some (JSON_stringify after)).
Proof.
  intros Hpos bound loaded ran after.
  assert (Hafter : after
            = foldl (updateHistory_step bound (now_iso (world s))) loaded
                    (results (this s))) by apply updateHistory_history.
  split; [|split; [|split]].
  - intros id kept Hin Hkept. rewrite Hafter in Hkept.
    by apply (updateHistory_fold_bound _ _ _ _ _ _ Hpos Hin Hkept).
  - intros id Hout. rewrite Hafter. by apply updateHistory_fold_other.
  - intros Hloaded id kept Hkept.
    destruct (decide (id ∈ ran)) as [Hin|Hout].
    + rewrite Hafter in Hkept.
      by apply (updateHistory_fold_bound _ _ _ _ _ _ Hpos Hin Hkept).
    + apply (Hloaded id). rewrite <- Hkept, Hafter. symmetry.
      by apply updateHistory_fold_other.
  - intros s'. subst after.
    unfold updateHistory, fs_writeFileSync, get_world, get_this, put_this,
      put_world, throw, mbind, M_bind. cbn.
    destruct (bool_decide _); [discriminate|].
    intros [= <-]. cbn. by rewrite lookup_insert_eq.
Qed.

Lemma C4_bound_after_update_witness :
  let self :=
    set_results [Sample.finished "a.spec.ts::t" passed 100%float]
      (Sample.with_options (SmartReporterOptions.mk None None (Some 2%Z) None)
         (Sample.known (Sample.ten 4))) in
  let after :=
    history (this (@updateHistory Sample.host (mkMachine self Sample.world)).2) in
  (Z.of_nat (length (default [] (after !! "a.spec.ts::t"))) ≤ 2)%Z.
Proof.
  intros self after.
  destruct (@C4_bound_after_update Sample.host (mkMachine self Sample.world))
    as (Hran & _).
  - vm_compute. reflexivity.
  - destruct (after !! "a.spec.ts::t") as [kept|] eqn:Hkept; cbn.
    + apply (Hran "a.spec.ts::t"); [|exact Hkept].
      vm_compute. apply list_elem_of_here.
    + lia.
Defined.

(** Where [loadHistory] ends, by the state of the history file. *)
Lemma loadHistory_run `{Host} (m : Machine) :
  loadHistory m
  = (Returned tt,
     match files (world m)
             !! path_resolve (outputDir (this m))
                  (Options.historyFile (options (this m))) with
     | None => m
     | Some txt =>
         if bool_decide
              (path_resolve (outputDir (this m))
                 (Options.historyFile (options (this m))) ∈ unreadable (world m))
         then mkMachine (set_history ∅ (this m)) (world m)
         else match JSON_parse txt with
              | Some h => mkMachine (set_history h (this m)) (world m)
              | None => mkMachine (set_history ∅ (this m)) (world m)
              end
     end).
Proof.
  destruct m as [self w].
  unfold loadHistory, fs_existsSync, fs_readFileSync, try_catch, get_world,
    get_this, put_this, throw, mbind, M_bind, mret, M_ret. cbn [this world].
  destruct (files w !! _) as [txt|] eqn:Hfile.
  - rewrite bool_decide_eq_true_2 by (by eexists). cbn [world this].
    rewrite Hfile.
    destruct (bool_decide (_ ∈ unreadable w)); [reflexivity|].
    destruct (JSON_parse txt); reflexivity.
  - rewrite bool_decide_eq_false_2 by (intros [? ?]; discriminate).
    reflexivity.
Qed.

(** C6.  [loadHistory] never throws and touches nothing but
    [this.history].  When the history file is missing it leaves the
    mapping as it is, which for a reporter that has just been
    constructed is the empty mapping; when the file is there and its
    content cannot be parsed, or cannot be read, the mapping is set to
    the empty one.  [onBegin] returns normally in all these cases. *)
Theorem C6_load_missing_or_malformed `{Host} (s : Machine) :
  let historyPath :=
    path_resolve (outputDir (this s)) (Options.historyFile (options (this s))) in
  (∃ h, loadHistory s = (Returned tt, mkMachine (set_history h (this s)) (world s)))
  ∧ (files (world s) !! historyPath = None → loadHistory s = (Returned tt, s))
  ∧ (∀ txt, files (world s) !! historyPath = Some txt →
       JSON_parse txt = None →
       loadHistory s = (Returned tt, mkMachine (set_history ∅ (this s)) (world s)))
  ∧ (is_Some (files (world s) !! historyPath) →
       historyPath ∈ unreadable (world s) →
       loadHistory s = (Returned tt, mkMachine (set_history ∅ (this s)) (world s)))
  ∧ (∀ (o : SmartReporterOptions.t) (config : FullConfig.t) (w : World),
       let begun := onBegin config (mkMachine (constructor o) w) in
       begun.1 = Returned tt
       ∧ world begun.2 = w
       ∧ (files w !! path_resolve (FullConfig.rootDir config)
                       (Options.historyFile (options (constructor o))) = None →
          history (this begun.2) = ∅)
       ∧ (∀ txt, files w !! path_resolve (FullConfig.rootDir config)
                       (Options.historyFile (options (constructor o))) = Some txt →
          JSON_parse txt = None →
          history (this begun.2) = ∅)).
Proof.
  intros historyPath.
  pose proof (@loadHistory_run _) as Hrun.
  split; [|split; [|split; [|split]]].
  - rewrite Hrun. fold historyPath.
    destruct (files (world s) !! historyPath) as [txt|].
    + destruct (bool_decide _); [by exists ∅|].
      destruct (JSON_parse txt) as [h|]; [by exists h|by exists ∅].
    + exists (history (this s)). by destruct s as [[] ?].
  - intros Hnone. rewrite Hrun. fold historyPath. by rewrite Hnone.
  - intros txt Hfile Hbad. rewrite Hrun. fold historyPath.
    rewrite Hfile, Hbad. by destruct (bool_decide _).
  - intros [txt Hfile] Hunr. rewrite Hrun. fold historyPath.
    rewrite Hfile. by rewrite bool_decide_eq_true_2.
  - intros o config w begun. subst begun.
    unfold onBegin, get_world, get_this, put_this, mbind, M_bind. cbn.
    rewrite Hrun. cbn.
    destruct (files w !! _) as [txt|]; cbn.
    + destruct (bool_decide _); cbn.
      * repeat split; done.
      * destruct (JSON_parse txt) as [h|] eqn:Hparse; cbn;
          repeat split; try done.
        intros txt' [= <-]. congruence.
    + repeat split; done.
Qed.

Lemma C6_load_missing_or_malformed_witness :
  let begun_missing :=
    @onBegin Sample.host (FullConfig.mk "/repo")
      (mkMachine (constructor SmartReporterOptions.none) Sample.world) in
  let begun_corrupt :=
    @onBegin Sample.host (FullConfig.mk "/repo")
      (mkMachine (constructor SmartReporterOptions.none) Sample.corrupt_world) in
  (begun_missing.1 = Returned tt ∧ history (this begun_missing.2) = ∅)
  ∧ (begun_corrupt.1 = Returned tt ∧ history (this begun_corrupt.2) = ∅).
Proof.
  intros begun_missing begun_corrupt.
  destruct (@C6_load_missing_or_malformed Sample.host
              (mkMachine Sample.fresh Sample.world))
    as (_ & _ & _ & _ & Hbegin).
  split.
  - destruct (Hbegin SmartReporterOptions.none (FullConfig.mk "/repo")
                Sample.world) as (Hret & _ & Hmissing & _).
    split; [exact Hret|]. apply Hmissing. vm_compute. reflexivity.
  - destruct (Hbegin SmartReporterOptions.none (FullConfig.mk "/repo")
                Sample.corrupt_world) as (Hret & _ & _ & Hcorrupt).
    split; [exact Hret|].
    apply (Hcorrupt "{ oops"); vm_compute; reflexivity.
Defined.

(* ================================================================== *)
(** * The run: collecting outcomes, enrichment, finalization *)
(* ================================================================== *)

(** Two keys built from colon-free files are equal only for equal
    files and titles. *)
Lemma key_injective (file1 title1 file2 title2 : string) :
  JS.includes_char JS.colon file1 = false →
  JS.includes_char JS.colon file2 = false →
  file1 +:+ "::" +:+ title1 = file2 +:+ "::" +:+ title2 →
  file1 = file2 ∧ title1 = title2.
Proof.
  revert file2. induction file1 as [|a file1 IH]; intros [|b file2] H1 H2 Heq;
    cbn in *.
  - by simplify_eq.
  - by simplify_eq.
  - by simplify_eq.
  - injection Heq as -> Heq.
    apply orb_false_iff in H1 as [_ H1]. apply orb_false_iff in H2 as [_ H2].
    by destruct (IH file2 H1 H2 Heq) as [-> ->].
Qed.

(** Collecting a sequence of outcomes appends their data, each computed
    from the reporter as it was before the first of them. *)
Lemma onTestEnd_events `{Host} (events : list (TestCase.t * TestResult.t))
    (s : Machine) :
  for_of events (λ ev, onTestEnd ev.1 ev.2) s
  = (Returned tt,
     mkMachine
       (set_results
          (results (this s) ++ ((λ ev, testData (this s) ev.1 ev.2) <$> events))
          (this s))
       (world s)).
Proof.
  revert s. induction events as [|ev events IH]; intros [self w].
  - cbn. rewrite app_nil_r. by destruct self.
  - cbn [for_of]. unfold mbind at 1, M_bind at 1.
    unfold onTestEnd at 1, get_this, put_this, mbind, M_bind. cbn [this world].
    rewrite IH. cbn [this world]. unfold set_results. cbn.
    by rewrite <- app_assoc.
Qed.

Section Enrichment.
Context `{Host}.

(** One turn of the enrichment loop, at an index that holds a result. *)
Lemma addAiSuggestions_body_run (a o : option string) (i : nat)
    (test : TestResultData.t) (s : Machine) :
  results (this s) !! i = Some test →
  JS.truthy a || JS.truthy o = true →
  addAiSuggestions_body a o i s
  = (Returned tt,
     mkMachine
       (set_results
          (alter (λ r, match ask a o test with
                       | Returned sug => TestResultData.set_aiSuggestion sug r
                       | Thrown _ => r
                       end) i (results (this s))) (this s))
       (set_console (console (world s) ++ complaint a o test)
          (set_requests (requests (world s) ++ [buildAiPrompt test]) (world s)))).
Proof.
  intros Hi Hkey. destruct s as [self w].
  unfold addAiSuggestions_body, request, try_catch, settle, console_log,
    get_world, put_world, get_this, put_this, mbind, M_bind, mret, M_ret.
  cbn [this world] in *. rewrite Hi. unfold complaint, ask.
  assert (Hworld : ∀ c, set_console (console w ++ [])
              (set_requests c w) = set_requests c w).
  { intros c. unfold set_console, set_requests. cbn. by rewrite app_nil_r. }
  assert (Hthis : set_results (alter (λ r, r) i (results self)) self = self).
  { rewrite list_alter_id by done. by destruct self. }
  destruct (JS.truthy a) eqn:Ha.
  - cbn [this world]. destruct (callAnthropic _ _) as [sug|err]; cbn [this world].
    + by rewrite Hworld.
    + by rewrite Hthis.
  - cbn in Hkey. rewrite Hkey. cbn [this world].
    destruct (callOpenAI _ _) as [sug|err]; cbn [this world].
    + by rewrite Hworld.
    + by rewrite Hthis.
Qed.

(** What one turn does to a failing result is [enriched]. *)
Lemma enriched_failure (a o : option string) (r : TestResultData.t) :
  isFailure r = true →
  match ask a o r with
  | Returned sug => TestResultData.set_aiSuggestion sug r
  | Thrown _ => r
  end = enriched a o r.
Proof. intros Hf. unfold enriched. by rewrite Hf. Qed.

(** The loop over the failing indices from [length pre] on, started
    with the results before them already processed. *)
Lemma enrichment_loop (a o : option string) (all : list TestResultData.t) :
  JS.truthy a || JS.truthy o = true →
  ∀ (rs pre0 pre : list TestResultData.t) (s : Machine),
    all = pre0 ++ rs →
    length pre0 = length pre →
    results (this s) = pre ++ rs →
    for_of (filter (λ i, from_option isFailure false (all !! i) = true)
              (seq (length pre) (length rs)))
           (addAiSuggestions_body a o) s
    = (Returned tt,
       mkMachine
         (set_results (pre ++ (enriched a o <$> rs)) (this s))
         (set_console
            (console (world s)
             ++ (filter (λ r, isFailure r = true) rs ≫= complaint a o))
            (set_requests
               (requests (world s)
                ++ (buildAiPrompt <$> filter (λ r, isFailure r = true) rs))
               (world s)))).
Proof.
  intros Hkey rs. induction rs as [|r rs IH]; intros pre0 pre s Hall Hlen Hres.
  - cbn. destruct s as [[] []]. cbn in *. subst.
    unfold set_results, set_console, set_requests. cbn.
    by rewrite !app_nil_r.
  - cbn [length seq]. rewrite filter_cons.
    assert (Hat0 : all !! length pre = Some r).
    { rewrite Hall, <- Hlen. by apply list_lookup_middle. }
    assert (Hat : results (this s) !! length pre = Some r).
    { rewrite Hres. by apply list_lookup_middle. }
    assert (Hall' : all = (pre0 ++ [r]) ++ rs) by by rewrite <- app_assoc.
    rewrite Hat0. cbn [from_option].
    rewrite (filter_cons (λ r, isFailure r = true)).
    destruct (isFailure r) eqn:Hfail.
    + rewrite decide_True by done. rewrite decide_True by done.
      cbn [for_of]. unfold mbind at 1, M_bind at 1.
      rewrite (addAiSuggestions_body_run a o _ r s Hat Hkey).
      replace (S (length pre)) with (length (pre ++ [enriched a o r]))
        by (rewrite length_app; cbn; lia).
      rewrite (IH (pre0 ++ [r]) (pre ++ [enriched a o r]) _ Hall').
      * cbn [this world]. rewrite fmap_cons, bind_cons.
        unfold set_results, set_console, set_requests. cbn.
        by rewrite <- !app_assoc.
      * rewrite !length_app. cbn. lia.
      * cbn [this world]. unfold set_results. cbn. rewrite Hres.
        rewrite alter_app_r_alt by lia. rewrite Nat.sub_diag. cbn.
        rewrite (enriched_failure a o r Hfail). by rewrite <- app_assoc.
    + rewrite decide_False by done. rewrite decide_False by done.
      replace (S (length pre)) with (length (pre ++ [r]))
        by (rewrite length_app; cbn; lia).
      rewrite (IH (pre0 ++ [r]) (pre ++ [r]) _ Hall').
      * rewrite fmap_cons. unfold enriched at 2. rewrite Hfail.
        by rewrite <- app_assoc.
      * rewrite !length_app. cbn. lia.
      * rewrite Hres. by rewrite <- app_assoc.
Qed.

(** There are as many failing indices as failing results. *)
Lemma failedTests_count (all : list TestResultData.t) :
  ∀ rs pre0 : list TestResultData.t,
    all = pre0 ++ rs →
    length (filter (λ i, from_option isFailure false (all !! i) = true)
              (seq (length pre0) (length rs)))
    = length (filter (λ r, isFailure r = true) rs).
Proof.
  intros rs. induction rs as [|r rs IH]; intros pre0 Hall; [done|].
  cbn [length seq]. rewrite !filter_cons.
  assert (Hat0 : all !! length pre0 = Some r).
  { rewrite Hall. by apply list_lookup_middle. }
  assert (Hall' : all = (pre0 ++ [r]) ++ rs) by by rewrite <- app_assoc.
  rewrite Hat0. cbn [from_option].
  replace (S (length pre0)) with (length (pre0 ++ [r]))
    by (rewrite length_app; cbn; lia).
  destruct (decide (isFailure r = true)); cbn [length];
    by rewrite (IH _ Hall').
Qed.

Lemma failedTests_length (rs : list TestResultData.t) :
  length (failedTests rs) = length (filter (λ r, isFailure r = true) rs).
Proof. by apply (failedTests_count rs rs []). Qed.

(** Where [addAiSuggestions] ends: untouched without a failing test, a
    tip on the console without a key, and otherwise every failing result
    asked about, enriched or complained about. *)
Lemma addAiSuggestions_run (s : Machine) :
  let rs := results (this s) in
  let w := world s in
  let a := env w !! "ANTHROPIC_API_KEY" in
  let o := env w !! "OPENAI_API_KEY" in
  let failing := filter (λ r, isFailure r = true) rs in
  addAiSuggestions s
  = (Returned tt,
     if (length failing =? 0)%nat then s
     else if negb (JS.truthy a) && negb (JS.truthy o) then
       mkMachine (this s) (set_console
            (console w
             ++ ["💡 Tip: Set ANTHROPIC_API_KEY or OPENAI_API_KEY for AI failure analysis"])
            w)
     else
       mkMachine
         (set_results (enriched a o <$> rs) (this s))
         (set_console
            (console w
             ++ [JS.newline +:+ "🤖 Analyzing "
                 +:+ Number_toString (JS.of_nat (length failing))
                 +:+ " failure(s) with AI..."]
             ++ (failing ≫= complaint a o))
            (set_requests (requests w ++ (buildAiPrompt <$> failing)) w))).
Proof.
  intros rs w a o failing.
  unfold addAiSuggestions. unfold mbind at 1, M_bind at 1, get_this at 1.
  fold rs. rewrite failedTests_length. fold failing.
  destruct (length failing =? 0)%nat; [reflexivity|].
  unfold process_env, get_world, mbind, M_bind, mret, M_ret. cbn [world].
  fold w a o.
  destruct (negb (JS.truthy a) && negb (JS.truthy o)) eqn:Hkeys.
  - reflexivity.
  - assert (Hkey : JS.truthy a || JS.truthy o = true).
    { destruct (JS.truthy a), (JS.truthy o); done. }
    unfold console_log, get_world, put_world, mbind, M_bind. cbn [world this].
    unfold failedTests.
    pose proof (enrichment_loop a o rs Hkey rs [] []) as Hloop.
    cbn [length app] in Hloop. rewrite Hloop by reflexivity.
    cbn [this world]. fold failing. f_equal. f_equal.
    unfold set_console, set_requests. cbn. by rewrite <- app_assoc.
Qed.

(** The history update does not look at [aiSuggestion]. *)
Lemma updateHistory_fold_enriched (a o : option string) (n : Z) (ts : string)
    (rs : list TestResultData.t) (h : TestHistory) :
  foldl (updateHistory_step n ts) h (enriched a o <$> rs)
  = foldl (updateHistory_step n ts) h rs.
Proof.
  revert h. induction rs as [|r rs IH]; intros h; [done|].
  rewrite fmap_cons. cbn [foldl]. rewrite IH. f_equal.
  unfold enriched. destruct (isFailure r); [|done].
  by destruct (ask a o r).
Qed.

(** [addAiSuggestions] returns, and leaves everything the rest of
    [onEnd] depends on as it was, up to the suggestions. *)
Lemma addAiSuggestions_frame (s : Machine) :
  ∃ s1, addAiSuggestions s = (Returned tt, s1)
    ∧ options (this s1) = options (this s)
    ∧ outputDir (this s1) = outputDir (this s)
    ∧ history (this s1) = history (this s)
    ∧ files (world s1) = files (world s)
    ∧ writes (world s1) = writes (world s)
    ∧ readonly (world s1) = readonly (world s)
    ∧ now_iso (world s1) = now_iso (world s)
    ∧ (∀ n ts h, foldl (updateHistory_step n ts) h (results (this s1))
                 = foldl (updateHistory_step n ts) h (results (this s))).
Proof.
  eexists. split; [apply addAiSuggestions_run|]. cbn zeta.
  destruct (_ =? _)%nat; [done|].
  destruct (_ && _); cbn; [done|].
  repeat split; try done. intros n ts h. apply updateHistory_fold_enriched.
Qed.

(** [onEnd] is the report and the history update, run from where the
    enrichment ends. *)
Lemma onEnd_after_enrichment (s : Machine) :
  onEnd s = (onEnd_report ≫= λ _, updateHistory) (addAiSuggestions s).2.
Proof.
  unfold onEnd. unfold mbind at 1, M_bind at 1.
  destruct (addAiSuggestions_frame s) as (s1 & -> & _). reflexivity.
Qed.

(** The report and the history are written, in that order, when both
    locations can be written. *)
Lemma finalization_run (s1 : Machine) :
  let self := this s1 in
  let w := world s1 in
  let outputPath := path_resolve (outputDir self) (Options.outputFile (options self)) in
  let historyPath := path_resolve (outputDir self) (Options.historyFile (options self)) in
  let html := generateHtml self w in
  let history' :=
    foldl (updateHistory_step (Options.maxHistoryRuns (options self)) (now_iso w))
          (history self) (results self) in
  outputPath ∉ readonly w → historyPath ∉ readonly w →
  (onEnd_report ≫= λ _, updateHistory) s1
  = (Returned tt,
     mkMachine (set_history history' self)
       (set_files
          (<[historyPath := JSON_stringify history']> (<[outputPath := html]> (files w)))
          (writes w ++ [(outputPath, html); (historyPath, JSON_stringify history')])
          (set_console
             (console w ++ [JS.newline +:+ "📊 Smart Report: " +:+ outputPath]) w))).
Proof.
  intros self w outputPath historyPath html history' Hout Hhist.
  destruct s1 as [self0 w0]. cbn [this world] in *. subst self w.
  unfold onEnd_report, updateHistory, fs_writeFileSync, console_log, get_world,
    get_this, put_this, put_world, throw, mbind, M_bind. cbn [this world].
  fold outputPath. rewrite (bool_decide_eq_false_2 _ Hout). cbn [this world].
  unfold set_files at 1 2 3, set_console at 1 2. cbn.
  fold historyPath. rewrite (bool_decide_eq_false_2 _ Hhist).
  fold html history'. unfold set_files, set_console. cbn.
  by rewrite <- app_assoc.
Qed.
End Enrichment.

(** C7 does not hold as stated: two different file-path/title pairs
    can give the same key, because the separator may occur in the
    components.  The test titled [v2::GET /users] in the file [api] and
    the test titled [GET /users] in the file [api::v2] both get the key
    [api::v2::GET /users]. *)
Lemma C7_different_tests_same_key :
  let test1 := TestCase.mk "v2::GET /users" "/repo/api" in
  let test2 := TestCase.mk "GET /users" "/repo/api::v2" in
  let file1 := @path_relative Sample.host "/repo" (TestCase.location_file test1) in
  let file2 := @path_relative Sample.host "/repo" (TestCase.location_file test2) in
  (file1 = "api" ∧ file2 = "api::v2")
  ∧ (file1, TestCase.title test1) ≠ (file2, TestCase.title test2)
  ∧ @getTestId Sample.host Sample.fresh test1 = "api::v2::GET /users"
  ∧ @getTestId Sample.host Sample.fresh test2 = "api::v2::GET /users".
Proof. vm_compute. repeat split. discriminate. Qed.

(** C7, amended.  The key is the relative file path and the title
    joined by [::]; it is a function of these two alone, the same for
    every outcome of the test whatever the retry count, the status, the
    duration, the results collected so far or the history.  For tests
    whose relative file paths contain no colon, two keys are equal if
    and only if the file paths are equal and the titles are equal. *)
Theorem C7_key_identifies_test `{Host} (self : SmartReporter)
    (test1 test2 : TestCase.t) :
  JS.includes_char JS.colon
    (path_relative (outputDir self) (TestCase.location_file test1)) = false →
  JS.includes_char JS.colon
    (path_relative (outputDir self) (TestCase.location_file test2)) = false →
  (getTestId self test1 = getTestId self test2
   ↔ path_relative (outputDir self) (TestCase.location_file test1)
     = path_relative (outputDir self) (TestCase.location_file test2)
     ∧ TestCase.title test1 = TestCase.title test2)
  ∧ getTestId self test1
    = path_relative (outputDir self) (TestCase.location_file test1)
      +:+ "::" +:+ TestCase.title test1
  ∧ (∀ (self' : SmartReporter) (result result' : TestResult.t),
       outputDir self' = outputDir self →
       TestResultData.testId (testData self' test1 result')
       = TestResultData.testId (testData self test1 result)).
Proof.
  intros Hfile1 Hfile2. split; [|split].
  - unfold getTestId. split.
    + by apply key_injective.
    + by intros [-> ->].
  - reflexivity.
  - intros self' result result' Hdir.
    assert (Hid : ∀ r res, TestResultData.testId (testData r test1 res)
                           = getTestId r test1).
    { intros r res. unfold testData.
      destruct (TestResult.status res), (TestResult.errors res),
        (0 <? length _)%nat; reflexivity. }
    rewrite !Hid. unfold getTestId. by rewrite Hdir.
Qed.

Lemma C7_key_identifies_test_witness :
  @getTestId Sample.host Sample.fresh (Sample.test "login")
  = @getTestId Sample.host Sample.fresh (Sample.test "logout")
  ↔ "a.spec.ts" = "a.spec.ts" ∧ "login" = "logout".
Proof.
  destruct (@C7_key_identifies_test Sample.host Sample.fresh
              (Sample.test "login") (Sample.test "logout")) as (Hiff & _).
  - vm_compute. reflexivity.
  - vm_compute. reflexivity.
  - exact Hiff.
Defined.

(** C8.  Processing test-completion events reads the history loaded at
    run start and changes neither it nor the outside world: after any
    sequence of events the mapping and the world are what they were, and
    the results collected are the signals computed, event by event, from
    that one snapshot.  The mapping is changed and persisted by [onEnd]
    alone: it becomes the loaded mapping with the entries of this run
    appended, and the run ends with exactly two writes, the report and
    then, once, the history file holding that mapping. *)
Theorem C8_history_untouched_until_run_end `{Host}
    (events : list (TestCase.t * TestResult.t)) (s : Machine) :
  let collected := for_of events (λ ev, onTestEnd ev.1 ev.2) s in
  let outputPath :=
    path_resolve (outputDir (this s)) (Options.outputFile (options (this s))) in
  let historyPath :=
    path_resolve (outputDir (this s)) (Options.historyFile (options (this s))) in
  (collected.1 = Returned tt
   ∧ history (this collected.2) = history (this s)
   ∧ world collected.2 = world s
   ∧ results (this collected.2)
     = results (this s) ++ ((λ ev, testData (this s) ev.1 ev.2) <$> events))
  ∧ (outputPath ∉ readonly (world s) → historyPath ∉ readonly (world s) →
     ∃ s2 html,
       onEnd s = (Returned tt, s2)
       ∧ history (this s2)
         = foldl (updateHistory_step (Options.maxHistoryRuns (options (this s)))
                    (now_iso (world s)))
                 (history (this s)) (results (this s))
       ∧ writes (world s2)
         = writes (world s)
           ++ [(outputPath, html); (historyPath, JSON_stringify (history (this s2)))]).
Proof.
  intros collected outputPath historyPath. split.
  - subst collected. rewrite onTestEnd_events. cbn. done.
  - intros Hout Hhist. rewrite onEnd_after_enrichment.
    destruct (addAiSuggestions_frame s)
      as (s1 & -> & Hopt & Hdir & Hhis & _ & Hwr & Hro & Hnow & Hfold).
    cbn [snd].
    pose proof (finalization_run s1) as Hfin. cbn zeta in Hfin.
    rewrite Hopt, Hdir, Hro, Hhis, Hnow, Hwr, Hfold in Hfin.
    rewrite (Hfin Hout Hhist). eexists _, _. split; [reflexivity|]. cbn. done.
Qed.

Lemma C8_history_untouched_until_run_end_witness :
  ∃ s2 html,
    @onEnd Sample.host
      (mkMachine
         (set_results [Sample.finished "a.spec.ts::t" passed 100%float]
            Sample.fresh) Sample.world)
    = (Returned tt, s2)
    ∧ writes (world s2)
      = [("/repo/smart-report.html", html);
         ("/repo/test-history.json",
          @JSON_stringify Sample.host (history (this s2)))].
Proof.
  destruct (@C8_history_untouched_until_run_end Sample.host []
              (mkMachine
                 (set_results [Sample.finished "a.spec.ts::t" passed 100%float]
                    Sample.fresh) Sample.world))
    as (_ & Hend).
  destruct Hend as (s2 & html & Hrun & _ & Hwrites).
  - apply not_elem_of_empty.
  - apply not_elem_of_empty.
  - exists s2, html. split; [exact Hrun|exact Hwrites].
Defined.

(** Without a failing test the loop changes no result. *)
Lemma enriched_no_failure `{Host} (a o : option string)
    (rs : list TestResultData.t) :
  filter (λ r, isFailure r = true) rs = [] → enriched a o <$> rs = rs.
Proof.
  induction rs as [|r rs IH]; [done|].
  rewrite filter_cons. destruct (decide (isFailure r = true)) as [|Hno]; [done|].
  intros Hnil. rewrite fmap_cons, (IH Hnil). f_equal.
  unfold enriched. by destruct (isFailure r).
Qed.

(** C9.  For every behaviour of the two providers: [addAiSuggestions]
    never throws, so [onEnd] always goes on to write the report and to
    update and persist the history, starting from the state the
    enrichment left.  When a key is set, a request is sent for every
    failing test, in order, whatever the fate of the requests before it;
    a request that fails is logged with the title of its test and leaves
    that result without a suggestion; a request that succeeds is stored
    in its result, also after earlier failures.  When the report and the
    history file can be written, [onEnd] returns with both written, the
    history holding the entries of this run. *)
Theorem C9_enrichment_failures_isolated `{Host} (s : Machine) :
  let rs := results (this s) in
  let a := env (world s) !! "ANTHROPIC_API_KEY" in
  let o := env (world s) !! "OPENAI_API_KEY" in
  let failing := filter (λ r, isFailure r = true) rs in
  let outputPath :=
    path_resolve (outputDir (this s)) (Options.outputFile (options (this s))) in
  let historyPath :=
    path_resolve (outputDir (this s)) (Options.historyFile (options (this s))) in
  ∃ s1,
    addAiSuggestions s = (Returned tt, s1)
    ∧ onEnd s = (onEnd_report ≫= λ _, updateHistory) s1
    ∧ (JS.truthy a || JS.truthy o = true →
       requests (world s1) = requests (world s) ++ (buildAiPrompt <$> failing)
       ∧ results (this s1) = enriched a o <$> rs
       ∧ (∀ r err, r ∈ failing → ask a o r = Thrown err →
            "Failed to get AI suggestion for " +:+ JS.dquote
              +:+ TestResultData.title r +:+ JS.dquote +:+ ": " +:+ err
            ∈ console (world s1))
       ∧ (∀ i r sug, rs !! i = Some r → isFailure r = true →
            ask a o r = Returned sug →
            results (this s1) !! i = Some (TestResultData.set_aiSuggestion sug r)))
    ∧ (outputPath ∉ readonly (world s) → historyPath ∉ readonly (world s) →
       ∃ s2 html,
         onEnd s = (Returned tt, s2)
         ∧ writes (world s2)
           = writes (world s)
             ++ [(outputPath, html); (historyPath, JSON_stringify (history (this s2)))]
         ∧ files (world s2) !! historyPath = Some (JSON_stringify (history (this s2)))
         ∧ history (this s2)
           = foldl (updateHistory_step (Options.maxHistoryRuns (options (this s)))
                      (now_iso (world s)))
                   (history (this s)) rs).
Proof.
  intros rs a o failing outputPath historyPath.
  pose proof (addAiSuggestions_run s) as Hrun. cbn zeta in Hrun.
  fold rs a o failing in Hrun.
  eexists. split; [exact Hrun|]. split.
  { rewrite onEnd_after_enrichment. by rewrite Hrun. }
  split.
  - intros Hkey.
    destruct (length failing =? 0)%nat eqn:Hnone.
    + apply Nat.eqb_eq, nil_length_inv in Hnone.
      rewrite Hnone. cbn. rewrite app_nil_r.
      split; [done|]. split; [by rewrite enriched_no_failure|].
      split; [intros r err Hin; by apply elem_of_nil in Hin|].
      intros i r sug Hi Hf _.
      assert (r ∈ failing) as Hin.
      { apply list_elem_of_filter. split; [done|]. by eapply list_elem_of_lookup_2. }
      rewrite Hnone in Hin. by apply elem_of_nil in Hin.
    + replace (negb (JS.truthy a) && negb (JS.truthy o)) with false
        by (destruct (JS.truthy a), (JS.truthy o); done).
      cbn [this world]. split; [done|]. split; [done|]. split.
      * intros r err Hin Herr. cbn. apply elem_of_app. right.
        apply elem_of_cons. right. apply list_elem_of_bind.
        exists r. split; [|done]. unfold complaint. rewrite Herr.
        apply list_elem_of_here.
      * intros i r sug Hi Hf Hsug. cbn. rewrite list_lookup_fmap, Hi. cbn.
        unfold enriched. by rewrite Hf, Hsug.
  - intros Hout Hhist.
    destruct (addAiSuggestions_frame s)
      as (s1 & Hs1 & Hopt & Hdir & Hhis & _ & Hwr & Hro & Hnow & Hfold).
    rewrite onEnd_after_enrichment, Hs1. cbn [snd].
    pose proof (finalization_run s1) as Hfin. cbn zeta in Hfin.
    rewrite Hopt, Hdir, Hro, Hhis, Hnow, Hwr, Hfold in Hfin.
    rewrite (Hfin Hout Hhist). eexists _, _. split; [reflexivity|]. cbn.
    split; [done|]. split; [|done]. by rewrite lookup_insert_eq.
Qed.

Lemma C9_enrichment_failures_isolated_witness :
  let s :=
    (for_of [(Sample.test "t", Sample.outcome_of passed 100%float);
             (Sample.test "login", Sample.outcome_of failed 100%float);
             (Sample.test "logout", Sample.outcome_of timedOut 100%float)]
       (λ ev, @onTestEnd Sample.host ev.1 ev.2)
       (mkMachine Sample.fresh Sample.world)).2 in
  ∃ s1,
    @addAiSuggestions Sample.host s = (Returned tt, s1)
    ∧ length (requests (world s1)) = 2%nat
    ∧ TestResultData.aiSuggestion <$> results (this s1)
      = [None; None; Some "Wait for the element before clicking."].
Proof.
  intros s.
  destruct (@C9_enrichment_failures_isolated Sample.host s)
    as (s1 & Hrun & _ & Hkey & _).
  exists s1. split; [exact Hrun|].
  destruct Hkey as (Hrequests & Hresults & _); [vm_compute; reflexivity|].
  rewrite Hrequests, Hresults. vm_compute. split; reflexivity.
Defined.

(* ================================================================== *)
(** * Whole runs *)
(* ================================================================== *)

(** Without a history file, one test passing in 500 ms is New and
    Baseline, and the history written holds its one entry. *)
Example run_without_history :
  let final :=
    @run Sample.host (FullConfig.mk "/repo")
      [(Sample.test "t", Sample.outcome_of passed 500%float)]
      (mkMachine (constructor SmartReporterOptions.none) Sample.world) in
  final.1 = Returned tt
  ∧ (λ d, (TestResultData.flakinessIndicator d, TestResultData.performanceTrend d))
      <$> results (this final.2)
    = [(Some "⚪ New", Some "→ Baseline")]
  ∧ history (this final.2)
    = {[ "a.spec.ts::t" :=
           [TestHistoryEntry.mk true 500%float "2024-02-02T00:00:00.000Z"] ]}
  ∧ fst <$> writes (world final.2)
    = ["/repo/smart-report.html"; "/repo/test-history.json"].
Proof. vm_compute. repeat split. Qed.

(** Ten earlier runs of which four failed, and a duration twice the
    average: Flaky at 0.4, and 100% slower. *)
Example run_flaky_and_slower :
  let d :=
    @testData Sample.host (Sample.known (Sample.ten 4)) (Sample.test "t")
      (Sample.outcome_of passed 200%float) in
  TestResultData.flakinessScore d = Some 0.4%float
  ∧ TestResultData.flakinessIndicator d = Some "🔴 Flaky"
  ∧ TestResultData.averageDuration d = Some 100%float
  ∧ TestResultData.performanceTrend d = Some "↑ 100% slower".
Proof. vm_compute. repeat split. Qed.

(** With [maxHistoryRuns = 1], a second run that loads what the first
    one wrote leaves the entry of the second run alone. *)
Example run_twice_keeps_one :
  let first : TestHistory :=
    {[ "a.spec.ts::t" :=
         [TestHistoryEntry.mk true 100%float "2024-01-01T00:00:00.000Z"] ]} in
  let host2 :=
    Ref.host [(Ref.JSON_stringify first, first)] Sample.provider Sample.provider in
  let world2 :=
    mkWorld {[ "/repo/test-history.json" := Ref.JSON_stringify first ]} ∅ ∅ ∅
      0%float "2024-02-02T00:00:00.000Z" [] [] [] in
  let final :=
    @run host2 (FullConfig.mk "/repo")
      [(Sample.test "t", Sample.outcome_of failed 300%float)]
      (mkMachine
         (constructor (SmartReporterOptions.mk None None (Some 1%Z) None))
         world2) in
  final.1 = Returned tt
  ∧ (λ d, (TestResultData.flakinessIndicator d, TestResultData.performanceTrend d))
      <$> results (this final.2)
    = [(Some "🟢 Stable", Some "↑ 200% slower")]
  ∧ history (this final.2)
    = {[ "a.spec.ts::t" :=
           [TestHistoryEntry.mk false 300%float "2024-02-02T00:00:00.000Z"] ]}.
Proof. vm_compute. repeat split. Qed.

(* ================================================================== *)
(** * The text helpers of the report *)
(* ================================================================== *)

Lemma string_app_assoc (a b c : string) :
  (a +:+ b) +:+ c = a +:+ (b +:+ c).
Proof.
  induction a as [|x a IH]; [reflexivity|].
  change ((String x a +:+ b) +:+ c) with (String x ((a +:+ b) +:+ c)).
  by rewrite IH.
Qed.

Lemma string_length_app (a b : string) :
  String.length (a +:+ b) = (String.length a + String.length b)%nat.
Proof.
  induction a as [|x a IH]; [reflexivity|].
  change (String x a +:+ b) with (String x (a +:+ b)). cbn. by rewrite IH.
Qed.

Lemma includes_char_app (c : Ascii.ascii) (a b : string) :
  JS.includes_char c (a +:+ b)
  = JS.includes_char c a || JS.includes_char c b.
Proof.
  induction a as [|x a IH]; [reflexivity|].
  change (String x a +:+ b) with (String x (a +:+ b)).
  cbn [JS.includes_char]. rewrite IH. by rewrite orb_assoc.
Qed.

(** The five replacements, one after the other, amount to replacing
    each character on its own: no replacement touches the text an
    earlier one has put in. *)
Lemma escapeHtml_cons (c : Ascii.ascii) (s : string) :
  escapeHtml (String c s) = escaped c +:+ escapeHtml s.
Proof.
  unfold escapeHtml, escaped. cbn [JS.replace_each].
  destruct (Ascii.eqb_spec JS.amp c) as [<-|Hamp]; [reflexivity|].
  cbn [JS.replace_each].
  destruct (Ascii.eqb_spec JS.lt c) as [<-|Hlt]; [reflexivity|].
  cbn [JS.replace_each].
  destruct (Ascii.eqb_spec JS.gt c) as [<-|Hgt]; [reflexivity|].
  cbn [JS.replace_each].
  destruct (Ascii.eqb_spec JS.quot c) as [<-|Hquot]; [reflexivity|].
  cbn [JS.replace_each].
  destruct (Ascii.eqb_spec JS.apos c) as [<-|Hapos]; reflexivity.
Qed.

Lemma escapeHtml_app (a b : string) :
  escapeHtml (a +:+ b) = escapeHtml a +:+ escapeHtml b.
Proof.
  induction a as [|c a IH]; [reflexivity|].
  change (String c a +:+ b) with (String c (a +:+ b)).
  rewrite !escapeHtml_cons, IH. by rewrite string_app_assoc.
Qed.

(** Case analysis on which of the five characters [c] is, if any. *)
Ltac by_character c :=
  unfold escaped;
  destruct (Ascii.eqb_spec JS.amp c) as [<-|?];
  [|destruct (Ascii.eqb_spec JS.lt c) as [<-|?];
    [|destruct (Ascii.eqb_spec JS.gt c) as [<-|?];
      [|destruct (Ascii.eqb_spec JS.quot c) as [<-|?];
        [|destruct (Ascii.eqb_spec JS.apos c) as [<-|?]]]]].

Lemma escaped_free (c k : Ascii.ascii) :
  k ∈ [JS.lt; JS.gt; JS.quot; JS.apos] →
  JS.includes_char k (escaped c) = false.
Proof.
  intros Hk. rewrite !elem_of_cons, elem_of_nil in Hk.
  by_character c;
    try (destruct Hk as [->|[->|[->|[->|[]]]]]; reflexivity).
  cbn [JS.includes_char]. rewrite orb_false_r.
  destruct Hk as [->|[->|[->|[->|[]]]]];
    apply Ascii.eqb_neq; congruence.
Qed.

Lemma escapeHtml_free (str : string) (k : Ascii.ascii) :
  k ∈ [JS.lt; JS.gt; JS.quot; JS.apos] →
  JS.includes_char k (escapeHtml str) = false.
Proof.
  intros Hk. induction str as [|c str IH]; [reflexivity|].
  rewrite escapeHtml_cons, includes_char_app, IH, orb_false_r.
  by apply escaped_free.
Qed.

(** The texts two characters become do not start one another. *)
Lemma escaped_prefix_free (c d : Ascii.ascii) (x y : string) :
  escaped c +:+ x = escaped d +:+ y → c = d ∧ x = y.
Proof.
  by_character c; by_character d; cbn; intros Heq; simplify_eq; try done.
Qed.

Lemma escaped_nonempty (c : Ascii.ascii) (x : string) :
  escaped c +:+ x ≠ EmptyString.
Proof. by_character c; done. Qed.

Lemma escapeHtml_inj (a b : string) :
  escapeHtml a = escapeHtml b → a = b.
Proof.
  revert b. induction a as [|c a IH]; intros [|d b].
  - done.
  - rewrite escapeHtml_cons. intros Heq. symmetry in Heq.
    by apply escaped_nonempty in Heq.
  - rewrite escapeHtml_cons. intros Heq. by apply escaped_nonempty in Heq.
  - rewrite !escapeHtml_cons. intros Heq.
    apply escaped_prefix_free in Heq as [-> Heq]. by rewrite (IH b Heq).
Qed.

Lemma escapeHtml_length (str : string) :
  (String.length str ≤ String.length (escapeHtml str))%nat.
Proof.
  induction str as [|c str IH]; [done|].
  rewrite escapeHtml_cons, string_length_app.
  assert (1 ≤ String.length (escaped c))%nat by (by_character c; cbn; lia).
  cbn [String.length]. lia.
Qed.

(** X1.  The text [escapeHtml] returns holds no [<], no [>], no double
    quote and no apostrophe, whatever the text it is given: nothing that
    is put into the page through it can open or close a tag or end an
    attribute value. *)
Theorem X1_escapeHtml_leaves_no_markup (str : string) :
  JS.includes_char JS.lt (escapeHtml str) = false
  ∧ JS.includes_char JS.gt (escapeHtml str) = false
  ∧ JS.includes_char JS.quot (escapeHtml str) = false
  ∧ JS.includes_char JS.apos (escapeHtml str) = false.
Proof.
  repeat split; apply escapeHtml_free; rewrite !elem_of_cons; tauto.
Qed.

(** X2.  [escapeHtml] loses nothing: two texts are escaped to the same
    text only when they are the same text.  It also goes through
    concatenation: the escape of [a] followed by [b] is the escape of
    [a] followed by the escape of [b], so that escaping the parts of a
    text and escaping the whole agree. *)
Theorem X2_escapeHtml_is_lossless (a b : string) :
  (escapeHtml a = escapeHtml b ↔ a = b)
  ∧ escapeHtml (a +:+ b) = escapeHtml a +:+ escapeHtml b.
Proof.
  split; [|apply escapeHtml_app].
  split; [apply escapeHtml_inj|by intros ->].
Qed.

(** X3.  The texts [escapeHtml] returns unchanged are exactly those
    that hold none of the five characters [&], [<], [>], the double
    quote and the apostrophe.  On every other text it is not
    idempotent: a second pass leaves the result of the first alone only
    when the first pass left the text alone. *)
Theorem X3_escapeHtml_fixed_points (str : string) :
  (escapeHtml str = str
   ↔ ∀ k, k ∈ [JS.amp; JS.lt; JS.gt; JS.quot; JS.apos] →
          JS.includes_char k str = false)
  ∧ (escapeHtml (escapeHtml str) = escapeHtml str ↔ escapeHtml str = str).
Proof.
  split; [|split; [apply escapeHtml_inj|intros Hfix; by rewrite !Hfix]].
  split.
  - intros Hfix k Hk. rewrite elem_of_cons in Hk. destruct Hk as [->|Hk].
    + clear -Hfix. induction str as [|c str IH]; [reflexivity|].
      rewrite escapeHtml_cons in Hfix. revert Hfix.
      pose proof (escapeHtml_length str) as Hlen.
      by_character c; intros Hfix;
        try (apply (f_equal String.length) in Hfix;
             rewrite string_length_app in Hfix; cbn in Hfix; lia).
      change (String c (escapeHtml str) = String c str) in Hfix.
      injection Hfix as Hfix. cbn [JS.includes_char].
      rewrite (proj2 (Ascii.eqb_neq c JS.amp)) by congruence. by apply IH.
    + rewrite <- Hfix. by apply escapeHtml_free.
  - intros Hsafe. induction str as [|c str IH]; [reflexivity|].
    rewrite escapeHtml_cons. rewrite IH.
    + assert (Hc : ∀ k, k ∈ [JS.amp; JS.lt; JS.gt; JS.quot; JS.apos] → k ≠ c).
      { intros k Hk <-. specialize (Hsafe k Hk). cbn in Hsafe.
        by rewrite Ascii.eqb_refl in Hsafe. }
      unfold escaped.
      rewrite !(proj2 (Ascii.eqb_neq _ _)); [reflexivity|apply Hc..];
        rewrite !elem_of_cons; tauto.
    + intros k Hk. specialize (Hsafe k Hk). cbn in Hsafe.
      by apply orb_false_iff in Hsafe as [_ ?].
Qed.

Lemma sanitizeId_cons (c : Ascii.ascii) (s : string) :
  sanitizeId (String c s)
  = String (if alphanumeric c then c else JS.underscore) (sanitizeId s).
Proof.
  unfold sanitizeId. cbn [JS.replace_each]. by destruct (alphanumeric c).
Qed.

Lemma sanitizeId_app (a b : string) :
  sanitizeId (a +:+ b) = sanitizeId a +:+ sanitizeId b.
Proof.
  induction a as [|c a IH]; [reflexivity|].
  change (String c a +:+ b) with (String c (a +:+ b)).
  rewrite !sanitizeId_cons, IH. reflexivity.
Qed.

(** X4.  [sanitizeId] returns a text of the same length, made of
    letters, digits and underscores only, and applying it to its own
    result changes nothing. *)
Theorem X4_sanitizeId_alphabet (str : string) :
  String.length (sanitizeId str) = String.length str
  ∧ (∀ c, JS.includes_char c (sanitizeId str) = true →
          alphanumeric c = true ∨ c = JS.underscore)
  ∧ sanitizeId (sanitizeId str) = sanitizeId str.
Proof.
  induction str as [|a str (IHlen & IHin & IHidem)]; [by repeat split|].
  rewrite sanitizeId_cons. split; [|split].
  - cbn [String.length]. by rewrite IHlen.
  - intros c. cbn [JS.includes_char]. intros [Hc|Hc]%orb_true_iff.
    + apply Ascii.eqb_eq in Hc as <-.
      destruct (alphanumeric a) eqn:Ha; [by left|by right].
    + by apply IHin.
  - rewrite sanitizeId_cons, IHidem. f_equal.
    destruct (alphanumeric a) eqn:Ha; [by rewrite Ha|reflexivity].
Qed.

(* ================================================================== *)
(** * The cards of a run *)
(* ================================================================== *)

Section Cards.
Context `{Host}.

(** The fields [onTestEnd] copies. *)
Lemma testData_identity (self : SmartReporter) (test : TestCase.t)
    (result : TestResult.t) :
  let d := testData self test result in
  TestResultData.testId d = getTestId self test
  ∧ TestResultData.title d = TestCase.title test
  ∧ TestResultData.file d
    = path_relative (outputDir self) (TestCase.location_file test)
  ∧ TestResultData.status d = TestResult.status result
  ∧ TestResultData.duration d = TestResult.duration result
  ∧ TestResultData.aiSuggestion d = None.
Proof.
  unfold testData.
  destruct (TestResult.status result), (TestResult.errors result),
    (0 <? _)%nat; repeat split.
Qed.

(** The identifier of the card of a test. *)
Lemma cardId_of_test (self : SmartReporter) (test : TestCase.t)
    (result : TestResult.t) :
  Card.cardId (testData self test result)
  = sanitizeId (path_relative (outputDir self) (TestCase.location_file test))
    +:+ "__" +:+ sanitizeId (TestCase.title test).
Proof.
  unfold Card.cardId.
  destruct (testData_identity self test result) as (-> & _).
  unfold getTestId. by rewrite !sanitizeId_app.
Qed.

(** X5.  The identifier of a card, under which the page looks up the
    details to unfold, is the sanitized file, two underscores and the
    sanitized title.  Two tests whose files and titles differ only in
    characters that are not letters or digits therefore get the same
    identifier, also when their history keys differ. *)
Theorem X5_cardId_shared (self : SmartReporter) (test1 test2 : TestCase.t)
    (result1 result2 : TestResult.t) :
  sanitizeId (path_relative (outputDir self) (TestCase.location_file test1))
  = sanitizeId (path_relative (outputDir self) (TestCase.location_file test2)) →
  sanitizeId (TestCase.title test1) = sanitizeId (TestCase.title test2) →
  Card.cardId (testData self test1 result1)
  = Card.cardId (testData self test2 result2).
Proof. intros Hfile Htitle. by rewrite !cardId_of_test, Hfile, Htitle. Qed.

Lemma getPerformanceTrend_slower (self : SmartReporter)
    (current average : float) :
  JS.startsWith "↑" (getPerformanceTrend self current average)
  = (Options.performanceThreshold (options self)
     <? (current - average) / average)%float.
Proof.
  unfold getPerformanceTrend. cbv zeta.
  destruct (_ <? (current - average) / average)%float; [reflexivity|].
  destruct (_ <? _)%float; reflexivity.
Qed.

(** X10.  The card of a test is marked slow, and counted as slow in
    the summary, exactly when the test has a history and its relative
    deviation from the average exceeds the threshold, that is, when
    [getPerformanceTrend] took its first branch: none of the other
    labels, [Baseline] included, starts with the upward arrow, whatever
    the number printed in the label. *)
Theorem X10_slow_flag_is_the_slower_branch (self : SmartReporter)
    (test : TestCase.t) (result : TestResult.t) :
  let entries := default [] (history self !! getTestId self test) in
  Card.isSlow (testData self test result)
  = (0 <? length entries)%nat
    && (Options.performanceThreshold (options self)
        <? (TestResult.duration result - avgDuration entries)
           / avgDuration entries)%float.
Proof.
  intros entries. subst entries. unfold Card.isSlow.
  destruct (history self !! getTestId self test) as [[|e es]|] eqn:Hlook;
    cbn [default from_option id].
  - destruct (testData_new self test result) as (_ & _ & -> & _);
      [by rewrite Hlook|]. reflexivity.
  - destruct (testData_known self test result _ Hlook ltac:(done))
      as (_ & _ & -> & _).
    cbn [from_option]. by rewrite getPerformanceTrend_slower.
  - destruct (testData_new self test result) as (_ & _ & -> & _);
      [by rewrite Hlook|]. reflexivity.
Qed.

(** X12.  After the outcomes have been collected and the enrichment
    has run, a card has details to unfold exactly when its test did not
    pass: a passed test never carries an error or a suggestion, and
    every other status has details by itself. *)
Theorem X12_details_for_all_but_passed (self : SmartReporter)
    (test : TestCase.t) (result : TestResult.t) (a o : option string) :
  Card.hasDetails (enriched a o (testData self test result))
  = negb (bool_decide (TestResult.status result = passed)).
Proof.
  destruct (testData_identity self test result)
    as (_ & _ & _ & Hst & _ & Hai).
  unfold Card.hasDetails, enriched, isFailure. rewrite Hst.
  destruct (TestResult.status result) eqn:Hres;
    try (destruct (ask a o _); cbn; rewrite ?Hst; cbn; by rewrite ?orb_true_r).
  - rewrite Hst, Hai. unfold testData. rewrite Hres.
    by destruct (0 <? _)%nat.
  - cbn. rewrite Hst. by rewrite orb_true_r.
  - cbn. rewrite Hst. by rewrite orb_true_r.
Qed.

(** X13.  [onTestEnd] records an error exactly for a failed or timed
    out outcome that comes with at least one error object; the message
    it records is never the empty text (an error object without a
    message gives [Unknown error]); and a stack is recorded only
    together with a message. *)
Theorem X13_error_only_for_failures (self : SmartReporter)
    (test : TestCase.t) (result : TestResult.t) :
  let d := testData self test result in
  (JS.truthy (TestResultData.error d) = true
   ↔ (TestResult.status result = failed ∨ TestResult.status result = timedOut)
     ∧ TestResult.errors result ≠ [])
  ∧ (TestResultData.error d = None
     ↔ JS.truthy (TestResultData.error d) = false)
  ∧ (is_Some (TestResultData.errorStack d) → is_Some (TestResultData.error d)).
Proof.
  unfold testData.
  destruct (TestResult.status result),
    (TestResult.errors result) as [|[msg st] errs], (0 <? _)%nat; cbn;
    (split; [|split]);
    try (split; [done || (intros _; split; [tauto|done]) | ]);
    try (by intros [? ?]); try (by eexists); try (intros [[|] ?]; done);
    try done;
    try (by destruct msg as [[|]|]).
  all: try (by intros _; destruct msg as [[|]|]).
Qed.

End Cards.

Lemma X5_cardId_shared_witness :
  let t1 := Sample.test "log in" in
  let t2 := Sample.test "log-in" in
  let r := Sample.outcome_of failed 100%float in
  String.eqb (TestResultData.testId (@testData Sample.host Sample.fresh t1 r))
             (TestResultData.testId (@testData Sample.host Sample.fresh t2 r))
  = false
  ∧ Card.cardId (@testData Sample.host Sample.fresh t1 r)
    = Card.cardId (@testData Sample.host Sample.fresh t2 r).
Proof.
  intros t1 t2 r. split.
  - vm_compute. reflexivity.
  - apply (@X5_cardId_shared Sample.host); vm_compute; reflexivity.
Defined.

(** For histories of up to 256 entries the card flag falls on the
    side of 3/10 the exact ratio is on. *)
Lemma flag_agrees_256 : flag_agrees_upto 256 = true.
Proof. vm_compute. reflexivity. Qed.

Lemma flag_agrees_upto_sound (n failures total : nat) :
  flag_agrees_upto n = true →
  (0 < total ≤ n)%nat → (failures ≤ total)%nat →
  JS.geb (JS.of_nat failures / JS.of_nat total)%float 0.3
  = (3 * total <=? 10 * failures)%nat.
Proof.
  unfold flag_agrees_upto. rewrite forallb_forall. intros Hall Htotal Hfailures.
  specialize (Hall total). rewrite forallb_forall in Hall.
  apply Bool.eqb_prop, Hall; apply in_seq; lia.
Qed.

Lemma flag_agrees (failures total : nat) :
  (0 < total ≤ 256)%nat → (failures ≤ total)%nat →
  JS.geb (JS.of_nat failures / JS.of_nat total)%float 0.3
  = (3 * total <=? 10 * failures)%nat.
Proof. apply flag_agrees_upto_sound, flag_agrees_256. Qed.

Lemma failures_le (entries : list TestHistoryEntry.t) :
  (failures entries ≤ length entries)%nat.
Proof. apply length_filter. Qed.

Lemma failures_all (entries : list TestHistoryEntry.t) :
  (∀ e, e ∈ entries → TestHistoryEntry.passed e = false) →
  failures entries = length entries.
Proof.
  unfold failures. induction entries as [|e entries IH]; intros Hall; [done|].
  rewrite filter_cons, decide_True by (apply Hall, list_elem_of_here).
  cbn [length]. rewrite IH; [done|].
  intros e' He'. apply Hall. by apply list_elem_of_further.
Qed.

(** The flag of a card and the indicator next to it, for a history of
    up to 256 entries. *)
Lemma flaky_flag `{Host} (self : SmartReporter)
    (test : TestCase.t) (result : TestResult.t) :
  let entries := default [] (history self !! getTestId self test) in
  let d := testData self test result in
  (length entries ≤ 256)%nat →
  (Card.isFlaky d = true
   ↔ TestResultData.flakinessIndicator d = Some "🔴 Flaky")
  ∧ (Card.isFlaky d = true
     ↔ (0 < length entries ∧ 3 * length entries ≤ 10 * failures entries)%nat).
Proof.
  intros entries d. subst entries d. unfold Card.isFlaky.
  destruct (history self !! getTestId self test) as [[|e es]|] eqn:Hlook;
    cbn [default from_option id]; intros Hlen.
  - destruct (testData_new self test result) as (-> & -> & _);
      [by rewrite Hlook|].
    split; split; try done. cbn. lia.
  - destruct (testData_known self test result _ Hlook ltac:(done))
      as (-> & -> & _).
    pose proof (failures_le (e :: es)) as Hle.
    assert (0 < length (e :: es))%nat as Hpos by (cbn [length]; lia).
    rewrite flag_agrees by (try split; (assumption || lia)).
    rewrite bands_agree by (try split; (assumption || lia)).
    unfold band_of_counts.
    destruct (Nat.leb_spec (3 * length (e :: es))
                (10 * failures (e :: es))) as [Hge|Hlt].
    + rewrite (proj2 (Nat.ltb_ge _ _)) by lia.
      rewrite (proj2 (Nat.ltb_ge _ _)) by lia.
      split; split; try done.
    + split; split; try done.
      * destruct (_ <? _)%nat; [done|].
        rewrite (proj2 (Nat.ltb_lt _ _)) by lia. done.
      * lia.
  - destruct (testData_new self test result) as (-> & -> & _);
      [by rewrite Hlook|].
    split; split; try done. cbn. lia.
Qed.

(** X11.  For a test with at most 256 prior entries, the card is
    flagged flaky (the test the summary and the filter use, a score of
    at least 0.3) exactly when the indicator shown on it is [Flaky] (the
    test [getFlakinessIndicator] uses, a score not below 0.3), and
    exactly when the test has a history in which at least three runs in
    ten failed.  A new test is never flagged. *)
Theorem X11_flaky_flag_and_indicator `{Host} (self : SmartReporter)
    (test : TestCase.t) (result : TestResult.t) :
  let entries := default [] (history self !! getTestId self test) in
  let d := testData self test result in
  (length entries ≤ 256)%nat →
  (Card.isFlaky d = true
   ↔ TestResultData.flakinessIndicator d = Some "🔴 Flaky")
  ∧ (Card.isFlaky d = true
     ↔ (0 < length entries ∧ 3 * length entries ≤ 10 * failures entries)%nat).
Proof. apply flaky_flag. Qed.

Lemma X11_flaky_flag_and_indicator_witness :
  Card.isFlaky
    (@testData Sample.host (Sample.known (Sample.ten 3)) (Sample.test "t")
       (Sample.outcome_of passed 100%float)) = true.
Proof.
  destruct (@X11_flaky_flag_and_indicator Sample.host
              (Sample.known (Sample.ten 3)) (Sample.test "t")
              (Sample.outcome_of passed 100%float)) as [_ Hiff].
  - vm_compute. lia.
  - apply Hiff. vm_compute. lia.
Defined.

(** X16.  Every outcome other than [passed] is stored as a failed run,
    [skipped] and [interrupted] included.  So a test whose recorded
    runs (up to 256 of them) all ended otherwise than [passed], for
    instance a test that is skipped in every run, is shown as [Flaky]
    and flagged flaky. *)
Theorem X16_never_passing_is_flaky `{Host} (self : SmartReporter)
    (test : TestCase.t) (result : TestResult.t)
    (entries : list TestHistoryEntry.t) :
  history self !! getTestId self test = Some entries →
  (0 < length entries ≤ 256)%nat →
  (∀ e, e ∈ entries →
     ∃ ts r, e = historyEntry ts r ∧ TestResultData.status r ≠ passed) →
  let d := testData self test result in
  TestResultData.flakinessIndicator d = Some "🔴 Flaky"
  ∧ Card.isFlaky d = true.
Proof.
  intros Hlook Hlen Hall d.
  assert (Hfail : failures entries = length entries).
  { apply failures_all. intros e He.
    destruct (Hall e He) as (ts & r & -> & Hst). cbn.
    by apply bool_decide_eq_false_2. }
  assert (Hne : entries ≠ []) by (intros ->; cbn in Hlen; lia).
  assert (Hind : TestResultData.flakinessIndicator d = Some "🔴 Flaky").
  { subst d.
    destruct (testData_known self test result _ Hlook Hne) as (_ & -> & _).
    rewrite bands_agree by lia. rewrite Hfail. unfold band_of_counts.
    rewrite (proj2 (Nat.ltb_ge _ _)) by lia.
    by rewrite (proj2 (Nat.ltb_ge _ _)) by lia. }
  split; [done|].
  destruct (flaky_flag self test result) as [Hiff _];
    [rewrite Hlook; cbn [default from_option id]; lia|].
  by apply Hiff.
Qed.

Lemma X16_never_passing_is_flaky_witness :
  let skipped_run :=
    historyEntry "2024-01-01T00:00:00.000Z"
      (Sample.finished "a.spec.ts::t" skipped 0%float) in
  TestResultData.flakinessIndicator
    (@testData Sample.host (Sample.known [skipped_run; skipped_run])
       (Sample.test "t") (Sample.outcome_of skipped 0%float))
  = Some "🔴 Flaky".
Proof.
  intros skipped_run.
  destruct (@X16_never_passing_is_flaky Sample.host
              (Sample.known [skipped_run; skipped_run]) (Sample.test "t")
              (Sample.outcome_of skipped 0%float) [skipped_run; skipped_run])
    as [Hind _].
  - vm_compute. reflexivity.
  - cbn [length]. lia.
  - intros e He. exists "2024-01-01T00:00:00.000Z",
      (Sample.finished "a.spec.ts::t" skipped 0%float).
    split; [|discriminate].
    rewrite !elem_of_cons, elem_of_nil in He.
    destruct He as [->|[->|[]]]; reflexivity.
  - exact Hind.
Defined.

(* ================================================================== *)
(** * The durations shown *)
(* ================================================================== *)

Section Durations.
Context `{Host}.

Lemma displayed_as_sound (text : string) (first count n : Z) :
  displayed_as text first count = true →
  (first ≤ n < first + count)%Z →
  formatDuration (JS.of_Z n) = text.
Proof.
  unfold displayed_as. rewrite forallb_forall. intros Hall Hn.
  apply String.eqb_eq, Hall, list_elem_of_In, elem_of_seqZ, Hn.
Qed.

Lemma nearly_a_minute : displayed_as "60.0s" 59950 50 = true.
Proof. vm_compute. reflexivity. Qed.

Lemma a_minute : displayed_as "1.0m" 60000 100 = true.
Proof. vm_compute. reflexivity. Qed.

(** X6.  A duration of a whole number of milliseconds from 59950 to
    59999 is shown as [60.0s]: the unit is chosen before the quotient is
    rounded to one decimal, so the seconds can reach sixty.  From 60000
    to 60099 milliseconds the text is [1.0m]. *)
Theorem X6_formatDuration_sixty_seconds (n : Z) :
  ((59950 ≤ n < 60000)%Z → formatDuration (JS.of_Z n) = "60.0s")
  ∧ ((60000 ≤ n < 60100)%Z → formatDuration (JS.of_Z n) = "1.0m").
Proof.
  split; intros Hn.
  - apply (displayed_as_sound _ 59950 50); [apply nearly_a_minute|lia].
  - apply (displayed_as_sound _ 60000 100); [apply a_minute|lia].
Qed.

End Durations.

(* ================================================================== *)
(** * The summary and the filter buttons *)
(* ================================================================== *)

Lemma filter_equiv {A : Type} (P Q : A → Prop)
    `{!∀ x, Decision (P x)} `{!∀ x, Decision (Q x)} (l : list A) :
  (∀ x, P x ↔ Q x) → filter P l = filter Q l.
Proof.
  intros HPQ. induction l as [|x l IH]; [done|].
  rewrite !filter_cons, IH.
  destruct (decide (P x)) as [HP|HP], (decide (Q x)) as [HQ|HQ];
    try done; exfalso; apply HPQ in HP || apply HPQ in HQ; done.
Qed.

(** A score of at least 0.3 is neither zero nor NaN. *)
Lemma geb_truthy (x : float) :
  JS.geb x 0.3 = true → JS.number_truthy x = true.
Proof.
  unfold JS.geb, JS.number_truthy. rewrite leb_spec, Prim2SF_three_tenths.
  by destruct (Prim2SF x) as [s|s| |s m e].
Qed.

Lemma Boolean_toString_true (b : bool) :
  String.eqb (JS.Boolean_toString b) "true" = b.
Proof. by destruct b. Qed.

(** What each button makes of the attributes of a card. *)
Lemma filterTests_attributes (r : TestResultData.t) :
  filterTests "all" (Card.attributes r) = true
  ∧ filterTests "passed" (Card.attributes r)
    = bool_decide (TestResultData.status r = passed)
  ∧ filterTests "failed" (Card.attributes r) = isFailure r
  ∧ filterTests "skipped" (Card.attributes r)
    = bool_decide (TestResultData.status r = skipped)
  ∧ filterTests "flaky" (Card.attributes r) = Card.isFlaky r
  ∧ filterTests "slow" (Card.attributes r) = Card.isSlow r.
Proof.
  unfold filterTests, Card.attributes, isFailure.
  cbn [Card.status Card.flaky Card.slow]. rewrite !Boolean_toString_true.
  destruct (TestResultData.status r); repeat split;
    by destruct (Card.isFlaky r), (Card.isSlow r).
Qed.

(** X7.  The three status figures of the summary leave out the timed
    out and the interrupted tests: passed, failed and skipped add up to
    the number of results less the number of results with one of these
    two statuses. *)
Theorem X7_summary_leaves_out_timeouts (results : list TestResultData.t) :
  (Summary.passed results + Summary.failed results + Summary.skipped results
   + length (filter (λ r, TestResultData.status r = timedOut
                          ∨ TestResultData.status r = interrupted) results)
   = length results)%nat.
Proof.
  unfold Summary.passed, Summary.failed, Summary.skipped.
  induction results as [|r results IH]; [done|].
  rewrite !filter_cons.
  destruct (TestResultData.status r) eqn:Hst;
    repeat (first [rewrite decide_True by (done || by (left + right))
                  |rewrite decide_False by (try done; intros [?|?]; done)]);
    cbn [length]; lia.
Qed.

(** X8.  The [Failed] button shows the failed and the timed out tests,
    the very tests the enrichment asks about, while the number written
    on it counts the failed ones only: it shows as many cards more than
    it announces as there are timed out tests. *)
Theorem X8_failed_button_shows_timeouts (results : list TestResultData.t) :
  shown "failed" results = filter (λ r, isFailure r = true) results
  ∧ length (shown "failed" results)
    = (Summary.failed results
       + length (filter (λ r, TestResultData.status r = timedOut) results))%nat.
Proof.
  assert (Hshown : shown "failed" results
                   = filter (λ r, isFailure r = true) results).
  { apply filter_equiv. intros r.
    destruct (filterTests_attributes r) as (_ & _ & -> & _). done. }
  split; [done|]. rewrite Hshown. clear Hshown. unfold Summary.failed.
  induction results as [|r results IH]; [done|].
  rewrite !filter_cons.
  destruct (decide (isFailure r = true)) as [Hf|Hf],
    (decide (TestResultData.status r = failed)) as [H1|H1],
    (decide (TestResultData.status r = timedOut)) as [H2|H2];
    cbn [length]; try lia; exfalso; unfold isFailure in Hf;
    destruct (TestResultData.status r); congruence.
Qed.

(** X9.  Every other button shows as many cards as the number written
    on it: [All] shows every card, and [Passed], [Skipped], [Flaky] and
    [Slow] show exactly the results the summary counted, although the
    summary tests the score for truthiness first and the card does
    not. *)
Theorem X9_buttons_show_what_they_count (results : list TestResultData.t) :
  shown "all" results = results
  ∧ length (shown "passed" results) = Summary.passed results
  ∧ length (shown "skipped" results) = Summary.skipped results
  ∧ length (shown "flaky" results) = Summary.flaky results
  ∧ length (shown "slow" results) = Summary.slow results.
Proof.
  unfold shown, Summary.passed, Summary.skipped, Summary.flaky, Summary.slow.
  split; [|split; [|split; [|split]]].
  - induction results as [|r results IH]; [done|].
    rewrite filter_cons, decide_True, IH; [done|].
    by destruct (filterTests_attributes r) as (-> & _).
  - f_equal. apply filter_equiv. intros r.
    destruct (filterTests_attributes r) as (_ & -> & _).
    apply bool_decide_eq_true.
  - f_equal. apply filter_equiv. intros r.
    destruct (filterTests_attributes r) as (_ & _ & _ & -> & _).
    apply bool_decide_eq_true.
  - f_equal. apply filter_equiv. intros r.
    destruct (filterTests_attributes r) as (_ & _ & _ & _ & -> & _).
    unfold Card.isFlaky. destruct (TestResultData.flakinessScore r) as [x|];
      [|done].
    destruct (JS.geb x 0.3) eqn:Hx.
    + by rewrite (geb_truthy x Hx).
    + by rewrite andb_false_r.
  - f_equal. apply filter_equiv. intros r.
    destruct (filterTests_attributes r) as (_ & _ & _ & _ & _ & ->). done.
Qed.

(** X23.  The two tables of [generateTestCard] have an entry for each
    of the five statuses, so the fallback colour and the fallback icon
    are never used; and the icon tells the five statuses apart, while
    the colour is the same for failed and timed out. *)
Theorem X23_status_tables_cover_every_status (test other : TestResultData.t) :
  Card.statusColors !! Status_name (TestResultData.status test)
  = Some (Card.cardColor test)
  ∧ Card.statusIcons !! Status_name (TestResultData.status test)
    = Some (Card.icon test)
  ∧ (Card.icon test = Card.icon other
     ↔ TestResultData.status test = TestResultData.status other)
  ∧ (Card.cardColor test = Card.cardColor other
     ↔ TestResultData.status test = TestResultData.status other
       ∨ (isFailure test = true ∧ isFailure other = true)).
Proof.
  unfold Card.cardColor, Card.icon, isFailure.
  destruct (TestResultData.status test), (TestResultData.status other);
    vm_compute; repeat split; try done; try (intros [?|[? ?]]; done);
    try (by left); try (by right).
Qed.

(* ================================================================== *)
(** * More of the history store *)
(* ================================================================== *)

(** Keeping the last [n] after every append keeps the last [n]. *)
Lemma drop_last_app {A : Type} (n : nat) (a b : list A) :
  drop (length (drop (length a - n) a ++ b) - n) (drop (length a - n) a ++ b)
  = drop (length (a ++ b) - n) (a ++ b).
Proof.
  rewrite !length_app, length_drop.
  destruct (decide (length a ≤ n)%nat) as [Hle|Hgt].
  - replace (length a - n)%nat with 0%nat by lia. cbn [drop].
    by replace (length a - 0)%nat with (length a) by lia.
  - replace (length a - (length a - n) + length b - n)%nat
      with (length b) by lia.
    replace (length a + length b - n)%nat
      with ((length a - n) + length b)%nat by lia.
    rewrite <- drop_drop. by rewrite (drop_app_le a b) by lia.
Qed.

(** What one turn of the loop keeps under a key, for any bound. *)
Lemma updateHistory_step_default (n : Z) (ts : string) (h : TestHistory)
    (r : TestResultData.t) (key : string) :
  default [] (updateHistory_step n ts h r !! key)
  = if decide (TestResultData.testId r = key) then
      let pushed := default [] (h !! key) ++ [historyEntry ts r] in
      if (n <? Z.of_nat (length pushed))%Z then JS.slice (- n) pushed
      else pushed
    else default [] (h !! key).
Proof.
  destruct (decide (TestResultData.testId r = key)) as [<-|Hne].
  - by rewrite updateHistory_step_same.
  - by rewrite updateHistory_step_other.
Qed.

Lemma updateHistory_fold_zero (ts : string) (rs : list TestResultData.t)
    (h : TestHistory) (key : string) :
  default [] (foldl (updateHistory_step 0 ts) h rs !! key)
  = default [] (h !! key)
    ++ (historyEntry ts <$> filter (λ r, TestResultData.testId r = key) rs).
Proof.
  revert h. induction rs as [|r rs IH]; intros h.
  - cbn. by rewrite app_nil_r.
  - cbn [foldl]. rewrite IH, updateHistory_step_default, filter_cons.
    destruct (decide (TestResultData.testId r = key)) as [Hid|Hne].
    + cbn zeta. rewrite length_app. cbn [length].
      rewrite (proj2 (Z.ltb_lt _ _)) by lia.
      rewrite (slice_zero (_ ++ _)). rewrite fmap_cons.
      by rewrite <- app_assoc.
    + done.
Qed.

Lemma updateHistory_fold_last (n : Z) (ts : string)
    (rs : list TestResultData.t) (h : TestHistory) (key : string) :
  (0 < n)%Z →
  let old := default [] (h !! key) in
  let new :=
    historyEntry ts <$> filter (λ r, TestResultData.testId r = key) rs in
  default [] (foldl (updateHistory_step n ts) h rs !! key)
  = match new with
    | [] => old
    | _ => drop (length (old ++ new) - Z.to_nat n) (old ++ new)
    end.
Proof.
  intros Hn. revert h. induction rs as [|r rs IH]; intros h old new.
  - subst new. cbn. done.
  - cbn [foldl]. specialize (IH (updateHistory_step n ts h r)).
    cbn zeta in IH. rewrite IH. clear IH.
    rewrite updateHistory_step_default. subst new. rewrite filter_cons.
    destruct (decide (TestResultData.testId r = key)) as [Hid|Hne]; [|done].
    rewrite fmap_cons. fold old. cbn zeta.
    set (rest := historyEntry ts
                   <$> filter (λ r0, TestResultData.testId r0 = key) rs).
    assert (Hkeep :
      (if (n <? Z.of_nat (length (old ++ [historyEntry ts r])))%Z
       then JS.slice (- n) (old ++ [historyEntry ts r])
       else old ++ [historyEntry ts r])
      = drop (length (old ++ [historyEntry ts r]) - Z.to_nat n)
             (old ++ [historyEntry ts r])).
    { destruct (Z.ltb_spec n (Z.of_nat (length (old ++ [historyEntry ts r])))).
      - by apply slice_last.
      - replace (length (old ++ [historyEntry ts r]) - Z.to_nat n)%nat
          with 0%nat by lia. done. }
    rewrite Hkeep.
    destruct rest as [|e rest'] eqn:Hrest.
    + done.
    + rewrite drop_last_app. by rewrite <- app_assoc.
Qed.

(** A test with a result in the run has a sequence afterwards. *)
Lemma updateHistory_fold_some (n : Z) (ts : string)
    (rs : list TestResultData.t) (h : TestHistory) (key : string) :
  key ∈ TestResultData.testId <$> rs →
  is_Some (foldl (updateHistory_step n ts) h rs !! key).
Proof.
  revert h. induction rs as [|r rs IH]; intros h Hin.
  - by apply elem_of_nil in Hin.
  - cbn [foldl]. rewrite fmap_cons, elem_of_cons in Hin.
    destruct (decide (key ∈ TestResultData.testId <$> rs)) as [Hrs|Hrs].
    + by apply IH.
    + rewrite updateHistory_fold_other by done.
      destruct Hin as [->|?]; [|done].
      rewrite updateHistory_step_same. by eexists.
Qed.

Section HistoryOfARun.
Context `{Host}.

(** X14.  Under a positive [maxHistoryRuns], what the run-end update
    leaves for a test that has results in the run is the end of one
    sequence: the loaded entries followed by one entry for each result
    of that test, retries included, in the order of the results; the
    last [maxHistoryRuns] of them are kept.  Truncating after every
    append, as the loop does, gives what truncating once at the end
    would. *)
Theorem X14_run_entries_then_truncation (s : Machine) (key : string) :
  (0 < Options.maxHistoryRuns (options (this s)))%Z →
  key ∈ TestResultData.testId <$> results (this s) →
  let all :=
    default [] (history (this s) !! key)
    ++ (historyEntry (now_iso (world s))
          <$> filter (λ r, TestResultData.testId r = key) (results (this s))) in
  history (this (updateHistory s).2) !! key
  = Some (drop (length all
                - Z.to_nat (Options.maxHistoryRuns (options (this s)))) all).
Proof.
  intros Hpos Hin all. subst all.
  pose proof (updateHistory_fold_last
                (Options.maxHistoryRuns (options (this s)))
                (now_iso (world s)) (results (this s)) (history (this s)) key
                Hpos) as Hfold.
  cbn zeta in Hfold. rewrite <- updateHistory_history in Hfold.
  set (new := historyEntry (now_iso (world s))
                <$> filter (λ r, TestResultData.testId r = key)
                      (results (this s))) in *.
  assert (Hnew : new ≠ []).
  { apply list_elem_of_fmap in Hin as (r & -> & Hr).
    intros Hnil. apply fmap_nil_inv in Hnil.
    assert (r ∈ filter (λ r0, TestResultData.testId r0 = TestResultData.testId r)
                  (results (this s))) as Hrin
      by (by apply list_elem_of_filter).
    rewrite Hnil in Hrin. by apply elem_of_nil in Hrin. }
  assert (Hsome : is_Some (history (this (updateHistory s).2) !! key)).
  { rewrite updateHistory_history. by apply updateHistory_fold_some. }
  destruct Hsome as [kept Hkept]. rewrite Hkept in Hfold |- *.
  cbn [default from_option id] in Hfold. rewrite Hfold.
  by destruct new.
Qed.

(** X15.  With [maxHistoryRuns = 0] the update never drops an entry:
    [slice(-0)] is the whole sequence, so every sequence is the loaded
    one followed by the entries of this run, and the history grows
    without bound from run to run. *)
Theorem X15_zero_bound_keeps_everything (s : Machine) (key : string) :
  Options.maxHistoryRuns (options (this s)) = 0%Z →
  default [] (history (this (updateHistory s).2) !! key)
  = default [] (history (this s) !! key)
    ++ (historyEntry (now_iso (world s))
          <$> filter (λ r, TestResultData.testId r = key) (results (this s))).
Proof.
  intros Hzero. rewrite updateHistory_history, Hzero.
  apply updateHistory_fold_zero.
Qed.

(** X17.  What one run persists, the next run loads: when
    [updateHistory] has returned, the history file can be read and the
    JSON text of the mapping is parsed back to that mapping, then
    [loadHistory] of a reporter with the same root directory and history
    file sets its history to exactly the mapping the first run ended
    with. *)
Theorem X17_history_round_trip (s s' : Machine) (next : SmartReporter) :
  let historyPath :=
    path_resolve (outputDir (this s)) (Options.historyFile (options (this s))) in
  updateHistory s = (Returned tt, s') →
  JSON_parse (JSON_stringify (history (this s'))) = Some (history (this s')) →
  historyPath ∉ unreadable (world s') →
  outputDir next = outputDir (this s) →
  Options.historyFile (options next) = Options.historyFile (options (this s)) →
  loadHistory (mkMachine next (world s'))
  = (Returned tt, mkMachine (set_history (history (this s')) next) (world s')).
Proof.
  intros historyPath Hrun Hcodec Hreadable Hdir Hfile.
  assert (Hwritten : files (world s') !! historyPath
                     = Some (JSON_stringify (history (this s')))).
  { revert Hrun. subst historyPath.
    unfold updateHistory, fs_writeFileSync, get_world, get_this, put_this,
      put_world, throw, mbind, M_bind. cbn.
    destruct (bool_decide _); [discriminate|].
    intros [= <-]. cbn. by rewrite lookup_insert_eq. }
  rewrite loadHistory_run. cbn [this world]. rewrite Hdir, Hfile.
  fold historyPath. rewrite Hwritten.
  rewrite bool_decide_eq_false_2 by done. by rewrite Hcodec.
Qed.

(* ================================================================== *)
(** * When a file cannot be written, and when no key is set *)
(* ================================================================== *)

(** X18.  When the report cannot be written, [onEnd] throws at that
    point: the history is neither updated in memory nor persisted, and
    no file is touched, so the outcomes of the run are lost to the
    following runs. *)
Theorem X18_report_failure_loses_the_run (s : Machine) :
  path_resolve (outputDir (this s)) (Options.outputFile (options (this s)))
    ∈ readonly (world s) →
  ∃ err s', onEnd s = (Thrown err, s')
    ∧ history (this s') = history (this s)
    ∧ files (world s') = files (world s)
    ∧ writes (world s') = writes (world s).
Proof.
  intros Hro. rewrite onEnd_after_enrichment.
  destruct (addAiSuggestions_frame s)
    as (s1 & -> & Hopt & Hdir & Hhis & Hfiles & Hwr & Hreadonly & _).
  cbn [snd].
  unfold onEnd_report, fs_writeFileSync, console_log, get_world, get_this,
    put_this, put_world, throw, mbind, M_bind. cbn [this world].
  rewrite Hopt, Hdir, Hreadonly. rewrite bool_decide_eq_true_2 by done.
  by eexists _, _.
Qed.

(** X19.  When the report can be written and the history file cannot,
    [onEnd] throws after the report has been written and after the
    mapping in memory has been updated: the reporter holds the entries
    of this run, the history file is as it was. *)
Theorem X19_history_failure_after_report (s : Machine) :
  let outputPath :=
    path_resolve (outputDir (this s)) (Options.outputFile (options (this s))) in
  let historyPath :=
    path_resolve (outputDir (this s)) (Options.historyFile (options (this s))) in
  outputPath ∉ readonly (world s) →
  historyPath ∈ readonly (world s) →
  ∃ err s' html, onEnd s = (Thrown err, s')
    ∧ history (this s')
      = foldl (updateHistory_step (Options.maxHistoryRuns (options (this s)))
                 (now_iso (world s)))
              (history (this s)) (results (this s))
    ∧ writes (world s') = writes (world s) ++ [(outputPath, html)]
    ∧ files (world s') !! historyPath = files (world s) !! historyPath.
Proof.
  intros outputPath historyPath Hout Hhist. rewrite onEnd_after_enrichment.
  destruct (addAiSuggestions_frame s)
    as (s1 & -> & Hopt & Hdir & Hhis & Hfiles & Hwr & Hreadonly & Hnow & Hfold).
  cbn [snd].
  unfold onEnd_report, updateHistory, fs_writeFileSync, console_log, get_world,
    get_this, put_this, put_world, throw, mbind, M_bind. cbn [this world].
  rewrite Hopt, Hdir, Hreadonly. fold outputPath.
  rewrite (bool_decide_eq_false_2 _ Hout). cbn [this world].
  unfold set_files at 1 2, set_console at 1. cbn.
  rewrite Hopt, Hdir, Hreadonly. fold historyPath.
  rewrite (bool_decide_eq_true_2 _ Hhist).
  eexists _, _, _. split; [reflexivity|]. cbn.
  rewrite Hhis, Hfold, Hwr, Hfiles, Hnow. repeat split.
  apply lookup_insert_ne. intros Heq. apply Hout. by rewrite Heq.
Qed.

(** X20.  Without a key that is set to a non-empty text (a key set to
    the empty text counts as missing), [addAiSuggestions] sends no
    request and changes no result and no file; it logs the tip once when
    there is a failing test, and nothing otherwise. *)
Theorem X20_no_key_no_request (s : Machine) :
  JS.truthy (env (world s) !! "ANTHROPIC_API_KEY") = false →
  JS.truthy (env (world s) !! "OPENAI_API_KEY") = false →
  ∃ s1, addAiSuggestions s = (Returned tt, s1)
    ∧ this s1 = this s
    ∧ requests (world s1) = requests (world s)
    ∧ files (world s1) = files (world s)
    ∧ console (world s1)
      = console (world s)
        ++ (if (length (filter (λ r, isFailure r = true) (results (this s)))
                =? 0)%nat
            then []
            else ["💡 Tip: Set ANTHROPIC_API_KEY or OPENAI_API_KEY for AI failure analysis"]).
Proof.
  intros Ha Ho. eexists. split; [apply addAiSuggestions_run|]. cbn zeta.
  rewrite Ha, Ho. destruct (_ =? _)%nat; cbn; by rewrite ?app_nil_r.
Qed.

End HistoryOfARun.

Lemma X14_run_entries_then_truncation_witness :
  let first := Sample.finished "a.spec.ts::t" failed 1%float in
  let retry := Sample.finished "a.spec.ts::t" passed 2%float in
  let s :=
    mkMachine
      (set_results [first; retry]
         (Sample.with_options (SmartReporterOptions.mk None None (Some 2%Z) None)
            (Sample.known (Sample.ten 4))))
      Sample.world in
  history (this (@updateHistory Sample.host s).2) !! "a.spec.ts::t"
  = Some [historyEntry "2024-02-02T00:00:00.000Z" first;
          historyEntry "2024-02-02T00:00:00.000Z" retry].
Proof.
  intros first retry s.
  rewrite (@X14_run_entries_then_truncation Sample.host s "a.spec.ts::t").
  - vm_compute. reflexivity.
  - vm_compute. reflexivity.
  - vm_compute. apply list_elem_of_here.
Defined.

Lemma X15_zero_bound_keeps_everything_witness :
  let s :=
    mkMachine
      (set_results [Sample.finished "a.spec.ts::t" passed 100%float]
         (Sample.with_options (SmartReporterOptions.mk None None (Some 0%Z) None)
            (Sample.known (Sample.ten 4))))
      Sample.world in
  length (default [] (history (this (@updateHistory Sample.host s).2)
                        !! "a.spec.ts::t")) = 11%nat.
Proof.
  intros s.
  rewrite (@X15_zero_bound_keeps_everything Sample.host s "a.spec.ts::t").
  - vm_compute. reflexivity.
  - vm_compute. reflexivity.
Defined.

Lemma X17_history_round_trip_witness :
  let s :=
    mkMachine
      (set_results [Sample.finished "a.spec.ts::t" passed 100%float] Sample.fresh)
      Sample.world in
  let s' := (@updateHistory Sample.once_host s).2 in
  history (this (@loadHistory Sample.once_host
                   (mkMachine Sample.fresh (world s'))).2)
  = Sample.once.
Proof.
  intros s s'.
  rewrite (@X17_history_round_trip Sample.once_host s s' Sample.fresh).
  - vm_compute. reflexivity.
  - vm_compute. reflexivity.
  - vm_compute. reflexivity.
  - apply not_elem_of_empty.
  - reflexivity.
  - reflexivity.
Defined.

Lemma X18_report_failure_loses_the_run_witness :
  let s :=
    mkMachine
      (set_results [Sample.finished "a.spec.ts::t" passed 100%float] Sample.fresh)
      Sample.report_locked in
  ∃ err s', @onEnd Sample.host s = (Thrown err, s')
    ∧ history (this s') = ∅
    ∧ files (world s') = ∅.
Proof.
  intros s.
  destruct (@X18_report_failure_loses_the_run Sample.host s)
    as (err & s' & Hrun & Hhistory & Hfiles & _).
  - vm_compute. reflexivity.
  - exists err, s'. split; [exact Hrun|]. split; [exact Hhistory|exact Hfiles].
Defined.

Lemma X19_history_failure_after_report_witness :
  let s :=
    mkMachine
      (set_results [Sample.finished "a.spec.ts::t" passed 100%float] Sample.fresh)
      Sample.history_locked in
  ∃ err s', @onEnd Sample.host s = (Thrown err, s')
    ∧ length <$> history (this s') !! "a.spec.ts::t" = Some 1%nat
    ∧ files (world s') !! "/repo/test-history.json" = None.
Proof.
  intros s.
  destruct (@X19_history_failure_after_report Sample.host s)
    as (err & s' & html & Hrun & Hhistory & _ & Hfile).
  - vm_compute. discriminate.
  - vm_compute. reflexivity.
  - exists err, s'. split; [exact Hrun|]. split.
    + rewrite Hhistory. vm_compute. reflexivity.
    + exact Hfile.
Defined.

Lemma X20_no_key_no_request_witness :
  let s :=
    mkMachine
      (set_results [Sample.finished "a.spec.ts::t" failed 100%float] Sample.fresh)
      Sample.keyless in
  ∃ s1, @addAiSuggestions Sample.host s = (Returned tt, s1)
    ∧ requests (world s1) = []
    ∧ console (world s1)
      = ["💡 Tip: Set ANTHROPIC_API_KEY or OPENAI_API_KEY for AI failure analysis"].
Proof.
  intros s.
  destruct (@X20_no_key_no_request Sample.host s)
    as (s1 & Hrun & _ & Hrequests & _ & Hconsole).
  - vm_compute. reflexivity.
  - vm_compute. reflexivity.
  - exists s1. split; [exact Hrun|]. split; [exact Hrequests|exact Hconsole].
Defined.

(* ================================================================== *)
(** * The two providers *)
(* ================================================================== *)

(** X21.  When the Anthropic key is set, nothing [addAiSuggestions]
    does depends on the second provider: replacing [callOpenAI] by any
    function at all gives the same results, requests and log.  OpenAI
    is never consulted, not even for a test whose Anthropic request
    fails, and whether or not its key is set. *)
Theorem X21_second_provider_never_consulted (base : Host)
    (call : string → string → outcome string) (s : Machine) :
  JS.truthy (env (world s) !! "ANTHROPIC_API_KEY") = true →
  @addAiSuggestions (with_callOpenAI base call) s = @addAiSuggestions base s.
Proof.
  intros Ha. rewrite !addAiSuggestions_run. cbn zeta. rewrite Ha.
  assert (Hask : ∀ r,
    @ask (with_callOpenAI base call) (env (world s) !! "ANTHROPIC_API_KEY")
         (env (world s) !! "OPENAI_API_KEY") r
    = @ask base (env (world s) !! "ANTHROPIC_API_KEY")
         (env (world s) !! "OPENAI_API_KEY") r).
  { intros r. unfold ask. by rewrite Ha. }
  assert (Henr : ∀ r,
    @enriched (with_callOpenAI base call) (env (world s) !! "ANTHROPIC_API_KEY")
         (env (world s) !! "OPENAI_API_KEY") r
    = @enriched base (env (world s) !! "ANTHROPIC_API_KEY")
         (env (world s) !! "OPENAI_API_KEY") r).
  { intros r. unfold enriched. by rewrite Hask. }
  assert (Hcom : ∀ r,
    @complaint (with_callOpenAI base call) (env (world s) !! "ANTHROPIC_API_KEY")
         (env (world s) !! "OPENAI_API_KEY") r
    = @complaint base (env (world s) !! "ANTHROPIC_API_KEY")
         (env (world s) !! "OPENAI_API_KEY") r).
  { intros r. unfold complaint. by rewrite Hask. }
  destruct (_ =? _)%nat; [done|]. cbn [negb andb].
  f_equal. f_equal.
  - f_equal. by apply list_fmap_ext.
  - f_equal. f_equal. f_equal.
    induction (filter _ _) as [|r rs IH]; [done|].
    by rewrite !bind_cons, IH, Hcom.
Qed.

Lemma X21_second_provider_never_consulted_witness :
  let s :=
    mkMachine
      (set_results [Sample.finished "a.spec.ts::t" failed 100%float] Sample.fresh)
      Sample.world in
  @addAiSuggestions
    (with_callOpenAI Sample.host (λ _ _, Returned "from the second provider")) s
  = @addAiSuggestions Sample.host s.
Proof.
  intros s. apply X21_second_provider_never_consulted.
  vm_compute. reflexivity.
Defined.

Lemma or_else_truthy (x : option string) (d : string) :
  d ≠ EmptyString → JS.truthy (Some (JS.or_else x d)) = true.
Proof. intros Hd. destruct x as [[|c x]|], d; done. Qed.

(** What either provider returns is not the empty text. *)
Lemma provider_answers (base : Host) (net : Network) (prompt key sug : string) :
  (@Provider.callAnthropic base net prompt key = Returned sug
   ∨ @Provider.callOpenAI base net prompt key = Returned sug) →
  JS.truthy (Some sug) = true.
Proof.
  unfold Provider.callAnthropic, Provider.callOpenAI.
  intros [Hcall|Hcall]; revert Hcall;
    destruct (fetch _ _) as [response|]; try done;
    destruct (negb _); try done.
  - destruct (json_anthropic response); [|done].
    intros [= <-]. by apply or_else_truthy.
  - destruct (json_openai response); [|done].
    intros [= <-]. by apply or_else_truthy.
Qed.

(** X22.  With the two providers as the program defines them over
    [fetch], the enrichment never stores an empty suggestion, whatever
    the network answers (where the answer holds no text the providers
    fall back to [No suggestion available]): if no result holds an
    empty suggestion before [addAiSuggestions], none does after it, so
    every stored suggestion is one the details of the card display. *)
Theorem X22_stored_suggestions_are_not_empty (base : Host) (net : Network)
    (s : Machine) :
  Forall no_empty_suggestion (results (this s)) →
  Forall no_empty_suggestion
    (results (this (@addAiSuggestions (Provider.host base net) s).2)).
Proof.
  intros Hall. rewrite addAiSuggestions_run. cbn zeta. cbn [snd].
  destruct (_ =? _)%nat; [done|]. destruct (_ && _); [done|].
  cbn [this results set_results]. apply Forall_fmap.
  eapply Forall_impl; [exact Hall|]. intros r Hr. cbn.
  unfold enriched. destruct (isFailure r); [|done].
  destruct (ask _ _ r) as [sug|err] eqn:Hask; [|done].
  right. cbn [TestResultData.aiSuggestion TestResultData.set_aiSuggestion].
  unfold ask in Hask.
  destruct (JS.truthy (env (world s) !! "ANTHROPIC_API_KEY"));
    eapply (provider_answers base net); [left|right]; exact Hask.
Qed.

Lemma X22_stored_suggestions_are_not_empty_witness :
  let s :=
    mkMachine
      (set_results [Sample.finished "a.spec.ts::t" failed 100%float] Sample.fresh)
      Sample.world in
  TestResultData.aiSuggestion
    <$> results (this (@addAiSuggestions (Provider.host Sample.host Sample.net) s).2)
  = [Some "No suggestion available"]
  ∧ Forall no_empty_suggestion
      (results (this (@addAiSuggestions (Provider.host Sample.host Sample.net) s).2)).
Proof.
  intros s. split.
  - vm_compute. reflexivity.
  - apply X22_stored_suggestions_are_not_empty.
    apply Forall_cons. split; [by left|apply Forall_nil_2].
Defined.
